(** * Giftnama API: the checkout endpoint of [main.py]

    A shallow embedding of [checkout] (main.py:159-229), of the request models
    it validates against, of the [schemas.py] field constraints, and of the
    document store it talks to.

    - Python [float] is IEEE-754 binary64, modelled by [spec_float] with
      precision 53 and maximal exponent 1024; arithmetic is the correctly
      rounded arithmetic of [SpecFloat].
    - Python [int] is [Z].
    - Exceptions are values of [Exception]; a computation is a function from
      the state of the world (the global [db] handle and the log of store
      calls) to the new state and either a value or a raised exception. *)

From Stdlib Require Import ZArith NArith List String Ascii Bool Lia.
From Stdlib Require Import Floats.SpecFloat.
From stdpp Require Import base option gmap strings.
Import ListNotations.

Local Open Scope string_scope.
Local Open Scope Z_scope.

(** ** Binary64 floating point *)

Module Float64.

Definition prec : Z := 53.
Definition emax : Z := 1024.

Abbreviation float := spec_float.

Definition add : float -> float -> float := SFadd prec emax.
Definition mul : float -> float -> float := SFmul prec emax.

(** The binary64 number nearest to the rational [n / d] (ties to even), with
    sign [s]: what a decimal literal and [strtod] denote. *)
Definition nearest (s : bool) (n d : positive) : float :=
  let '(mz, ez, lz) := SFdiv_core_binary prec emax (Zpos n) 0 (Zpos d) 0 in
  binary_round_aux prec emax s mz ez lz.

(** [float(n)] for an [int]: the nearest float, and [None] when that is out
    of range and Python raises [OverflowError]. *)
Definition nearest_int (n : Z) : float := binary_normalize prec emax n 0 false.

Definition of_int (n : Z) : option float :=
  match nearest_int n with
  | S754_infinity _ => None
  | x => Some x
  end.

(** [n / d] rounded to the nearest integer, ties to the even one ([0 < d]). *)
Definition round_half_even (n d : Z) : Z :=
  let q := n / d in
  match 2 * (n mod d) ?= d with
  | Lt => q
  | Gt => q + 1
  | Eq => if Z.even q then q else q + 1
  end.

(** The magnitude of a finite float, times 100, rounded to an integer. *)
Definition cents (m : positive) (e : Z) : Z :=
  match e with
  | Zneg k => round_half_even (Zpos m * 100) (Z.pow_pos 2 k)
  | _ => Zpos m * 100 * 2 ^ e
  end.

(** [round(x, 2)] on a float: the exact value of [x] is rounded to two
    decimals (ties to even) and the decimal result is converted back to the
    nearest float; infinities, nan and zeros round to themselves, and the
    sign of [x] is kept. *)
Definition round2 (x : float) : float :=
  match x with
  | S754_finite s m e =>
      match cents m e with
      | Zpos q => nearest s q 100
      | _ => S754_zero s
      end
  | _ => x
  end.

(** [x >= n] for a float [x] and an int [n]: Python compares the exact
    values; nan compares false. *)
Definition ge_int (x : float) (n : Z) : bool :=
  match x with
  | S754_nan => false
  | S754_infinity s => negb s
  | S754_zero _ => n <=? 0
  | S754_finite s m e =>
      let v := if s then Zneg m else Zpos m in
      match e with
      | Zneg k => n * Z.pow_pos 2 k <=? v
      | _ => n <=? v * 2 ^ e
      end
  end.

(** [x <= n], likewise. *)
Definition le_int (x : float) (n : Z) : bool :=
  match x with
  | S754_nan => false
  | S754_infinity s => s
  | S754_zero _ => 0 <=? n
  | S754_finite s m e =>
      let v := if s then Zneg m else Zpos m in
      match e with
      | Zneg k => v <=? n * Z.pow_pos 2 k
      | _ => v * 2 ^ e <=? n
      end
  end.

Definition zero : float := S754_zero false.

(** Decimal literals of the source. *)
Definition f49_0 : float := nearest false 49 1.
Definition f6_99 : float := nearest false 699 100.
Definition f0_08 : float := nearest false 8 100.

End Float64.

Import Float64.

(** A Python number as the source uses them: [shipping] is the int [0] or
    the float [6.99]; a stored price may be either. *)
Inductive Number :=
| Int (n : Z)
| Float (x : float).

(** ** Exceptions and results *)

Inductive Exception :=
| HTTPException (status_code : Z) (detail : string)
| InvalidId
| KeyError (key : string)
| OverflowError
| PyMongoError
| StoreUnavailable.

Inductive Result (A : Type) :=
| Return (a : A)
| Raise (e : Exception).

Arguments Return {A} a.
Arguments Raise {A} e.

(** [float(v)] *)
Definition py_float (v : Number) : Result float :=
  match v with
  | Float x => Return x
  | Int n => match of_int n with
             | Some x => Return x
             | None => Raise OverflowError
             end
  end.

(** [x * n] for a float [x] and an int [n] *)
Definition mul_int (x : float) (n : Z) : Result float :=
  match of_int n with
  | Some y => Return (mul x y)
  | None => Raise OverflowError
  end.

(** [x + v] for a float [x] *)
Definition add_number (x : float) (v : Number) : Result float :=
  match py_float v with
  | Return y => Return (add x y)
  | Raise e => Raise e
  end.

(** [round(v, 2)]: an int rounds to itself and stays an int. *)
Definition round2_number (v : Number) : Number :=
  match v with
  | Int n => Int n
  | Float x => Float (round2 x)
  end.

(** ** Documents (schemas.py) *)

Record ProductImage := {
  url : option string;
  alt : option string
}.

(** A document of the "product" collection, with the fields of
    [schemas.Product]. The store does not enforce the schema, so the keys
    that [checkout] reads ([title], [price], [images], and [url] of an
    image) may be absent, and a price may be stored as an int. *)
Record Product := {
  title : option string;
  description : option string;
  price : option Number;
  category : option string;
  tags : list string;
  images : option (list ProductImage);
  rating : option float;
  in_stock : bool;
  stock_qty : option Z
}.

(** One entry of [items_out] (main.py:187-194). *)
Record LineItem := {
  li_product_id : string;
  li_title : string;
  li_price : float;
  li_quantity : Z;
  li_image : option string;
  li_line_total : float
}.

Record Customer := {
  c_name : string;
  c_email : string;
  c_address_line1 : string;
  c_city : string;
  c_state : string;
  c_postal_code : string;
  c_country : string
}.

(** [order_doc] (main.py:202-218). *)
Record OrderDoc := {
  o_items : list LineItem;
  o_subtotal : float;
  o_shipping : Number;
  o_tax : float;
  o_total : float;
  o_customer : Customer;
  o_status : string
}.

Inductive Document :=
| ProductDocument (p : Product)
| OrderDocument (o : OrderDoc).

(** ** The document store *)

(** A collection maps the 12-byte [_id] of each document to the document. *)
Record Database := {
  collections : gmap string (gmap N Document);
  connected : bool
}.

Inductive StoreCall :=
| FindOne (collection : string) (oid : N)
| InsertOne (collection : string) (doc : Document).

(** [db] is the module-level handle of [database]: [None] when no database
    is configured. [calls] logs every call that reaches the store. *)
Record World := {
  db : option Database;
  calls : list StoreCall
}.

Definition M (A : Type) : Type := World -> World * Result A.

Definition ret {A} (a : A) : M A := fun w => (w, Return a).
Definition raise {A} (e : Exception) : M A := fun w => (w, Raise e).
Definition lift {A} (r : Result A) : M A := fun w => (w, r).

Definition bind {A B} (c : M A) (k : A -> M B) : M B :=
  fun w => match c w with
           | (w', Return a) => k a w'
           | (w', Raise e) => (w', Raise e)
           end.

(** [try: c except Exception: h] *)
Definition try_except {A} (c : M A) (h : Exception -> M A) : M A :=
  fun w => match c w with
           | (w', Return a) => (w', Return a)
           | (w', Raise e) => h e w'
           end.

Declare Scope py_scope.
Delimit Scope py_scope with py.
Notation "x <- c ;; k" := (bind c (fun x => k))
  (at level 100, c at next level, right associativity) : py_scope.
Notation "c ;; k" := (bind c (fun _ => k))
  (at level 100, right associativity) : py_scope.
Local Open Scope py_scope.

Definition get_db : M (option Database) := fun w => (w, Return (db w)).

Definition log (c : StoreCall) : M unit :=
  fun w => ({| db := db w; calls := (calls w ++ [c])%list |}, Return tt).

(** *** bson.ObjectId *)

Definition hex_digit (c : ascii) : option N :=
  let n := N_of_ascii c in
  if ((48 <=? n) && (n <=? 57))%N then Some (n - 48)%N
  else if ((97 <=? n) && (n <=? 102))%N then Some (n - 87)%N
  else if ((65 <=? n) && (n <=? 70))%N then Some (n - 55)%N
  else None.

Fixpoint parse_hex (s : string) (acc : N) : option N :=
  match s with
  | EmptyString => Some acc
  | String c s' =>
      match hex_digit c with
      | Some d => parse_hex s' (16 * acc + d)%N
      | None => None
      end
  end.

(** [ObjectId(s)]: a string of 24 hex digits is a valid id, anything else
    raises [InvalidId]. The identifiers considered are strings of digits
    and letters: a 24-character string with blanks in it, which the driver
    reads as an identifier of fewer than 12 bytes and looks up in vain, is
    taken here as invalid; the request that names it is answered the same
    way. *)
Definition ObjectId (s : string) : Result N :=
  if (String.length s =? 24)%nat then
    match parse_hex s 0%N with
    | Some oid => Return oid
    | None => Raise InvalidId
    end
  else Raise InvalidId.

Definition collection (d : Database) (name : string) : gmap N Document :=
  default ∅ (collections d !! name).

(** [db[name].find_one({"_id": oid})] on a configured store. *)
Definition find_one (d : Database) (name : string) (oid : N) : M (option Document) :=
  log (FindOne name oid) ;;
  if connected d then ret (collection d name !! oid) else raise PyMongoError.

(** Modelled from the spec: [database.create_document] is imported by
    [main.py] but is not among the sources. The specification gives its
    contract as [insert(collection_name, document) -> generated_id]: the
    document is added to the named collection under an identifier that the
    store generates, and the identifier is returned; without a store, or
    on a store that cannot be reached, the call fails with a
    [StoreUnavailable] condition. On a reachable store the insert is taken
    to succeed: a document that the store refuses is outside this model. *)
Definition create_document (name : string) (doc : Document) : M N :=
  d <- get_db ;;
  match d with
  | None => raise StoreUnavailable
  | Some d =>
      log (InsertOne name doc) ;;
      if connected d then
        let oid := fresh (dom (collection d name)) in
        let d' := {|
          collections := <[name := <[oid := doc]> (collection d name)]> (collections d);
          connected := connected d |} in
        fun w => ({| db := Some d'; calls := calls w |}, Return oid)
      else raise StoreUnavailable
  end.

(** ** Request models (main.py:143-156) *)

Record CartItem := {
  product_id : string;
  quantity : Z
}.

Record CheckoutRequest := {
  items : list CartItem;
  customer_name : string;
  customer_email : string;
  address_line1 : string;
  address_city : string;
  address_state : string;
  address_postal_code : string;
  address_country : string
}.

(** The response dictionary of [checkout] (main.py:221-229). *)
Record Response := {
  r_items : list LineItem;
  r_subtotal : float;
  r_shipping : Number;
  r_tax : float;
  r_total : float;
  r_status : string;
  r_message : string
}.

(** ** checkout (main.py:159-229) *)

Definition mock_image : string :=
  "https://images.unsplash.com/photo-1523275335684-37898b6baf30".

(** [doc["price"]] and [doc["title"]]: an order document has neither key. *)
Definition getitem_price (doc : Document) : Result Number :=
  match doc with
  | ProductDocument p =>
      match price p with Some v => Return v | None => Raise (KeyError "price") end
  | OrderDocument _ => Raise (KeyError "price")
  end.

Definition getitem_title (doc : Document) : Result string :=
  match doc with
  | ProductDocument p =>
      match title p with Some v => Return v | None => Raise (KeyError "title") end
  | OrderDocument _ => Raise (KeyError "title")
  end.

(** [(doc.get("images") or [{}])[0].get("url")] *)
Definition first_image_url (doc : Document) : option string :=
  match doc with
  | ProductDocument p =>
      match images p with
      | Some (img :: _) => url img
      | _ => None
      end
  | OrderDocument _ => None
  end.

(** The body of the [try] block, main.py:176-181. *)
Definition lookup_product (d : Database) (item : CartItem)
  : M (float * string * option string) :=
  oid <- lift (ObjectId (product_id item)) ;;
  doc <- find_one d "product" oid ;;
  match doc with
  | None =>
      raise (HTTPException 404 ("Product " ++ product_id item ++ " not found"))
  | Some doc =>
      v <- lift (getitem_price doc) ;;
      price <- lift (py_float v) ;;
      title <- lift (getitem_title doc) ;;
      ret (price, title, first_image_url doc)
  end.

(** main.py:169-183: the mock when [db is None], else the guarded lookup. *)
Definition resolve (item : CartItem) : M (float * string * option string) :=
  d <- get_db ;;
  match d with
  | None => ret (f49_0, "Gift Item", Some mock_image)
  | Some d =>
      try_except (lookup_product d item)
        (fun _ => raise (HTTPException 400 "Invalid product id"))
  end.

(** The [for] loop, main.py:168-194, with its two accumulators. *)
Fixpoint checkout_loop (its : list CartItem) (items_out : list LineItem)
    (subtotal : float) : M (list LineItem * float) :=
  match its with
  | [] => ret (items_out, subtotal)
  | item :: rest =>
      r <- resolve item ;;
      let '(price, title, image) := r in
      line_total <- lift (mul_int price (quantity item)) ;;
      let subtotal := add subtotal line_total in
      let items_out := (items_out ++ [ {|
        li_product_id := product_id item;
        li_title := title;
        li_price := price;
        li_quantity := quantity item;
        li_image := image;
        li_line_total := round2 line_total |} ])%list in
      checkout_loop rest items_out subtotal
  end.

Definition checkout (payload : CheckoutRequest) : M Response :=
  match items payload with
  | [] => raise (HTTPException 400 "Cart is empty")
  | _ =>
      acc <- checkout_loop (items payload) [] zero ;;
      let '(items_out, subtotal) := acc in
      let shipping := if ge_int subtotal 75 then Int 0 else Float f6_99 in
      let tax := round2 (mul subtotal f0_08) in
      s <- lift (add_number subtotal shipping) ;;
      let total := round2 (add s tax) in
      d <- get_db ;;
      match d with
      | Some _ =>
          let order_doc := {|
            o_items := items_out;
            o_subtotal := round2 subtotal;
            o_shipping := round2_number shipping;
            o_tax := tax;
            o_total := total;
            o_customer := {|
              c_name := customer_name payload;
              c_email := customer_email payload;
              c_address_line1 := address_line1 payload;
              c_city := address_city payload;
              c_state := address_state payload;
              c_postal_code := address_postal_code payload;
              c_country := address_country payload |};
            o_status := "processing" |} in
          create_document "order" (OrderDocument order_doc) ;; ret tt
      | None => ret tt
      end ;;
      ret {|
        r_items := items_out;
        r_subtotal := round2 subtotal;
        r_shipping := round2_number shipping;
        r_tax := tax;
        r_total := total;
        r_status := "processing";
        r_message := "Order placed successfully" |}
  end.

(** ** The validation layer and the HTTP surface *)

(** A pydantic [ge] bound on an integer field: [None] when the field is
    declared without one. *)
Definition CartItem_quantity_ge : option Z := None.   (* main.py:145, quantity: int *)
Definition OrderItem_quantity_ge : option Z := Some 1. (* schemas.py:36, Field(..., ge=1) *)

Definition check_ge (bound : option Z) (v : Z) : bool :=
  match bound with
  | None => true
  | Some b => b <=? v
  end.

(** Request validation of [CheckoutRequest]: the position of the first cart
    item whose quantity violates the declared bound, if any. *)
Fixpoint validate_items (its : list CartItem) (i : nat) : option nat :=
  match its with
  | [] => None
  | item :: rest =>
      if check_ge CartItem_quantity_ge (quantity item)
      then validate_items rest (S i)
      else Some i
  end.

Definition validate_CheckoutRequest (payload : CheckoutRequest) : option nat :=
  validate_items (items payload) 0.

Inductive HttpResponse :=
| Ok200 (body : Response)
| ValidationError422 (item : nat)
| HttpError (status : Z) (detail : string).

(** [POST /api/checkout] on a body that has been parsed into a
    [CheckoutRequest]: the bounds that the model declares are checked, then
    [checkout] runs; an [HTTPException] becomes its status, any other
    exception a 500. What is answered before the handler is entered, for a
    body that is not such a request (a missing field, a quantity that is no
    integer), is not part of this function: its argument is the typed
    request. *)
Definition post_checkout (payload : CheckoutRequest) (w : World) : World * HttpResponse :=
  match validate_CheckoutRequest payload with
  | Some i => (w, ValidationError422 i)
  | None =>
      match checkout payload w with
      | (w', Return r) => (w', Ok200 r)
      | (w', Raise (HTTPException status detail)) => (w', HttpError status detail)
      | (w', Raise _) => (w', HttpError 500 "Internal Server Error")
      end
  end.

Definition client_error (e : Exception) : bool :=
  match e with
  | HTTPException status _ => (400 <=? status) && (status <? 500)
  | _ => false
  end.

(** The constraints that [schemas.Order] and [schemas.OrderItem] declare on
    a document of the "order" collection (schemas.py:32-59). *)
Definition number_ge (v : Number) (n : Z) : bool :=
  match v with
  | Int k => n <=? k
  | Float x => ge_int x n
  end.

Definition OrderItem_valid (li : LineItem) : bool :=
  ge_int (li_price li) 0 && check_ge OrderItem_quantity_ge (li_quantity li).

Definition Order_valid (o : OrderDoc) : bool :=
  forallb OrderItem_valid (o_items o)
  && ge_int (o_subtotal o) 0 && number_ge (o_shipping o) 0
  && ge_int (o_tax o) 0 && ge_int (o_total o) 0.

(** The constraints that [schemas.Product] declares (schemas.py:20-29): a
    title, a price that is at least 0, a rating within 0..5 and a stock
    that is at least 0, the last two when present. *)
Definition Product_valid (p : Product) : bool :=
  match title p, price p with
  | Some _, Some v =>
      number_ge v 0
      && match rating p with Some x => ge_int x 0 && le_int x 5 | None => true end
      && match stock_qty p with Some n => 0 <=? n | None => true end
  | _, _ => false
  end.

(** ** Quantities the properties are stated with *)

(** [price * quantity] of a line, before any rounding. *)
Definition raw_line_total (li : LineItem) : float :=
  mul (li_price li) (nearest_int (li_quantity li)).

(** The accumulated subtotal: the line products added up in cart order,
    starting from [0.0]. *)
Definition raw_subtotal (lines : list LineItem) : float :=
  fold_left add (map raw_line_total lines) zero.

(** The sum of the rounded line totals, as they appear in the response. *)
Definition sum_of_line_totals (lines : list LineItem) : float :=
  fold_left add (map li_line_total lines) zero.

(** [round(subtotal + shipping + tax, 2)] for a given subtotal. *)
Definition total_of (subtotal : float) (shipping : Number) (tax : float) : Result float :=
  match add_number subtotal shipping with
  | Return s => Return (round2 (add s tax))
  | Raise e => Raise e
  end.

(** A cart item that the loop body prices without raising: the product
    resolves and the quantity converts to a float. *)
Definition priceable (w : World) (item : CartItem) : Prop :=
  (exists r, snd (resolve item w) = Return r) /\ is_Some (of_int (quantity item)).

(** The line that the loop emits for a cart item. *)
Definition line_of (w : World) (item : CartItem) (li : LineItem) : Prop :=
  snd (resolve item w) = Return (li_price li, li_title li, li_image li)
  /\ li_product_id li = product_id item
  /\ li_quantity li = quantity item
  /\ li_line_total li = round2 (raw_line_total li).

(** The store calls a request may issue: reads of "product", and the insert
    of one order document. *)
Definition product_read (c : StoreCall) : Prop :=
  match c with
  | FindOne name _ => name = "product"
  | InsertOne _ _ => False
  end.

Definition order_insert (c : StoreCall) : Prop :=
  match c with
  | InsertOne name (OrderDocument _) => name = "order"
  | _ => False
  end.

(** The ways in which the resolution of a cart item fails on a configured
    store. *)
Inductive unresolvable (d : Database) (item : CartItem) : Prop :=
| malformed_id :
    ObjectId (product_id item) = Raise InvalidId -> unresolvable d item
| lookup_error oid :
    ObjectId (product_id item) = Return oid ->
    connected d = false -> unresolvable d item
| not_found oid :
    ObjectId (product_id item) = Return oid ->
    connected d = true ->
    collection d "product" !! oid = None -> unresolvable d item
| bad_document oid doc e :
    ObjectId (product_id item) = Return oid ->
    connected d = true ->
    collection d "product" !! oid = Some doc ->
    (getitem_price doc = Raise e
     \/ (exists v, getitem_price doc = Return v /\ py_float v = Raise e)
     \/ getitem_title doc = Raise e) ->
    unresolvable d item.

Definition products (w : World) : option (gmap N Document) :=
  (fun d => collection d "product") <$> db w.

Definition orders (w : World) : option (gmap N Document) :=
  (fun d => collection d "order") <$> db w.

(** The store calls that resolving one cart item issues. *)
Definition resolve_calls (d : option Database) (item : CartItem) : list StoreCall :=
  match d, ObjectId (product_id item) with
  | Some _, Return oid => [FindOne "product" oid]
  | _, _ => []
  end.


(** The shipping fee for an accumulated subtotal (main.py:196). *)
Definition shipping_of (sub : float) : Number :=
  if ge_int sub 75 then Int 0 else Float f6_99.

(** The response for a list of emitted lines. *)
Definition response_of (lines : list LineItem) : Response :=
  let sub := raw_subtotal lines in
  let tax := round2 (mul sub f0_08) in
  {| r_items := lines;
     r_subtotal := round2 sub;
     r_shipping := round2_number (shipping_of sub);
     r_tax := tax;
     r_total := round2 (add (add sub (if ge_int sub 75 then zero else f6_99)) tax);
     r_status := "processing";
     r_message := "Order placed successfully" |}.


(** ** Sample data *)

Definition sample_product (t : string) (p : float) (img : string) (stock : Z) : Product :=
  {| title := Some t;
     description := Some "";
     price := Some (Float p);
     category := None;
     tags := [];
     images := Some [ {| url := Some img; alt := None |} ];
     rating := Some (nearest false 48 10);
     in_stock := true;
     stock_qty := Some stock |}.

(** The three demonstration products of [seed_products] (main.py:49-89),
    under the identifiers 1, 2 and 3. *)
Definition rose_luxe : Product :=
  sample_product "Rose Luxe Perfume Gift Set" (nearest false 89 1)
    "https://images.unsplash.com/photo-1611930022073-b7a4ba5fcccd" 120.
Definition chocolate_hamper : Product :=
  sample_product "Artisanal Chocolate Hamper" (nearest false 59 1)
    "https://images.unsplash.com/photo-1541976076758-347942db1970" 80.
Definition bamboo_organizer : Product :=
  sample_product "Personalized Bamboo Organizer" (nearest false 35 1)
    "https://images.unsplash.com/photo-1524758631624-e2822e304c36" 50.

(** Three further products whose prices, 10.125, 0.125 and 0.0625, are exact
    binary fractions with more than two decimals, under the identifiers 4,
    5 and 6. *)
Definition gift_card : Product :=
  sample_product "Gift Card" (nearest false 10125 1000) "https://example.com/card.png" 10.
Definition ribbon : Product :=
  sample_product "Ribbon" (nearest false 125 1000) "https://example.com/ribbon.png" 10.
Definition sticker : Product :=
  sample_product "Sticker" (nearest false 625 10000) "https://example.com/sticker.png" 10.

Definition demo_store : Database :=
  {| collections :=
       {[ "product" :=
            <[1%N := ProductDocument rose_luxe]>
            (<[2%N := ProductDocument chocolate_hamper]>
            (<[3%N := ProductDocument bamboo_organizer]>
            (<[4%N := ProductDocument gift_card]>
            (<[5%N := ProductDocument ribbon]>
            (<[6%N := ProductDocument sticker]> ∅))))) ]};
     connected := true |}.

Definition demo_world : World := {| db := Some demo_store; calls := [] |}.
Definition no_store : World := {| db := None; calls := [] |}.

Definition oid_of (n : string) : string := "00000000000000000000000" ++ n.

Definition request_of (its : list CartItem) : CheckoutRequest :=
  {| items := its;
     customer_name := "Ada";
     customer_email := "ada@example.com";
     address_line1 := "1 Main St";
     address_city := "Springfield";
     address_state := "IL";
     address_postal_code := "62701";
     address_country := "US" |}.

Definition cart_item (n : string) (q : Z) : CartItem :=
  {| product_id := oid_of n; quantity := q |}.

Definition gift_card_request : CheckoutRequest := request_of [cart_item "4" 1].
Definition two_ribbons_request : CheckoutRequest :=
  request_of [cart_item "5" 1; cart_item "5" 1].
Definition sticker_request : CheckoutRequest := request_of [cart_item "6" 1].
Definition mixed_request : CheckoutRequest :=
  request_of [cart_item "4" 1; cart_item "1" 2].
Definition empty_request : CheckoutRequest := request_of [].
Definition missing_product_request : CheckoutRequest := request_of [cart_item "9" 1].
Definition zero_quantity_request : CheckoutRequest := request_of [cart_item "1" 0].
Definition negative_quantity_request : CheckoutRequest := request_of [cart_item "1" (-1)].
Definition overflow_request : CheckoutRequest := request_of [cart_item "1" (2 ^ 1024)].

(** ** Further quantities for the checkout endpoint *)

(** [order_doc] for the emitted lines (main.py:202-218). *)
Definition order_doc_of (payload : CheckoutRequest) (lines : list LineItem) : OrderDoc :=
  let sub := raw_subtotal lines in
  let tax := round2 (mul sub f0_08) in
  {| o_items := lines;
     o_subtotal := round2 sub;
     o_shipping := round2_number (shipping_of sub);
     o_tax := tax;
     o_total := round2 (add (add sub (if ge_int sub 75 then zero else f6_99)) tax);
     o_customer := {|
       c_name := customer_name payload;
       c_email := customer_email payload;
       c_address_line1 := address_line1 payload;
       c_city := address_city payload;
       c_state := address_state payload;
       c_postal_code := address_postal_code payload;
       c_country := address_country payload |};
     o_status := "processing" |}.

(** What [checkout] reads of a stored document: its price, its title and
    the url of its first image. *)
Definition snapshot (doc : Document) : Result Number * Result string * option string :=
  (getitem_price doc, getitem_title doc, first_image_url doc).

(** Two states of the handle that [checkout] cannot tell apart: both absent,
    or both present, equally reachable, and with the same snapshot under
    every identifier of "product". *)
Definition same_catalog (d1 d2 : option Database) : Prop :=
  match d1, d2 with
  | None, None => True
  | Some a, Some b =>
      connected a = connected b
      /\ forall oid, snapshot <$> (collection a "product" !! oid)
                     = snapshot <$> (collection b "product" !! oid)
  | _, _ => False
  end.

(** The amounts of a response. *)
Definition amounts (r : Response) : float * Number * float * float :=
  (r_subtotal r, r_shipping r, r_tax r, r_total r).

(** The sample store with the Rose Luxe set sold out. *)
Definition sold_out_store : Database :=
  {| collections :=
       {[ "product" :=
            <[1%N := ProductDocument
                       {| title := title rose_luxe;
                          description := description rose_luxe;
                          price := price rose_luxe;
                          category := category rose_luxe;
                          tags := tags rose_luxe;
                          images := images rose_luxe;
                          rating := rating rose_luxe;
                          in_stock := false;
                          stock_qty := Some 0 |}]>
            (<[2%N := ProductDocument chocolate_hamper]>
            (<[3%N := ProductDocument bamboo_organizer]>
            (<[4%N := ProductDocument gift_card]>
            (<[5%N := ProductDocument ribbon]>
            (<[6%N := ProductDocument sticker]> ∅))))) ]};
     connected := true |}.

(** The amounts of an outcome, or its exception. *)
Definition outcome_amounts (res : Result Response) : Result (float * Number * float * float) :=
  match res with
  | Return r => Return (amounts r)
  | Raise e => Raise e
  end.

(** A cart item that names a product document of the store. *)
Definition stored (d : Database) (item : CartItem) (p : Product) : Prop :=
  exists oid,
    ObjectId (product_id item) = Return oid
    /\ collection d "product" !! oid = Some (ProductDocument p).

(** A product document with the two keys that [checkout] requires: a title,
    and a price that converts to a float. *)
Definition sellable (p : Product) : Prop :=
  is_Some (title p) /\ exists v x, price p = Some v /\ py_float v = Return x.

(** What a line of the response copies from a product document. *)
Definition copied_from (p : Product) (li : LineItem) : Prop :=
  title p = Some (li_title li)
  /\ (exists v, price p = Some v /\ py_float v = Return (li_price li))
  /\ li_image li = match images p with
                   | Some (img :: _) => url img
                   | _ => None
                   end.

(** The sign of a float that is not nan. *)
Definition signed (s : bool) (x : float) : Prop :=
  match x with
  | S754_zero s' | S754_infinity s' | S754_finite s' _ _ => s' = s
  | S754_nan => False
  end.

(** A cart item with a quantity from 1 to below 2^53 that resolves to a
    price that is at least 0. *)
Definition regular (w : World) (item : CartItem) : Prop :=
  1 <= quantity item < 2 ^ 53
  /\ exists p t i, snd (resolve item w) = Return (p, t, i) /\ ge_int p 0 = true.

(** The response for the two accumulators of the loop (main.py:196-198 and
    221-229), and the outcome of a request for the outcome of its loop. *)
Definition response_for (items_out : list LineItem) (subtotal : float) : Response :=
  let tax := round2 (mul subtotal f0_08) in
  {| r_items := items_out;
     r_subtotal := round2 subtotal;
     r_shipping := round2_number (shipping_of subtotal);
     r_tax := tax;
     r_total := round2 (add (add subtotal (if ge_int subtotal 75 then zero else f6_99)) tax);
     r_status := "processing";
     r_message := "Order placed successfully" |}.

Definition outcome_of_loop (res : Result (list LineItem * float)) : Result Response :=
  match res with
  | Return (items_out, subtotal) => Return (response_for items_out subtotal)
  | Raise e => Raise e
  end.

(** ** Product listing (main.py:23-39, 99-128) *)

(** [str(oid)] for an [ObjectId]: its 12 bytes as 24 lowercase hex digits. *)
Definition hex_char (d : N) : ascii :=
  if (d <? 10)%N then ascii_of_N (48 + d) else ascii_of_N (87 + d).

Fixpoint hex_of (n : nat) (v : N) (acc : string) : string :=
  match n with
  | O => acc
  | S n' => hex_of n' (v / 16)%N (String (hex_char (v mod 16)%N) acc)
  end.

Definition str_ObjectId (oid : N) : string := hex_of 24 oid "".

(** [ProductOut] (main.py:23-24): a validated [schemas.Product] with the
    identifier as a string. *)
Record ProductImageOut := {
  io_url : string;
  io_alt : option string
}.

Record ProductOut := {
  po_id : string;
  po_title : string;
  po_description : option string;
  po_price : float;
  po_category : option string;
  po_tags : list string;
  po_images : list ProductImageOut;
  po_rating : option float;
  po_in_stock : bool;
  po_stock_qty : option Z
}.

(** What constructing a pydantic model can end with: an exception raised
    while the arguments are evaluated, or a [ValidationError] that names the
    fields whose constraints are violated, in the order of declaration. *)
Inductive Failure :=
| Exc (e : Exception)
| ValidationError (fields : list string).

Inductive Try (A : Type) :=
| Done (a : A)
| Fail (f : Failure).

Arguments Done {A} a.
Arguments Fail {A} f.

(** The keys of a document as [doc.get] sees them: an order document has
    none of the keys of a product. *)
Definition product_view (doc : Document) : Product :=
  match doc with
  | ProductDocument p => p
  | OrderDocument _ =>
      {| title := None; description := None; price := None; category := None;
         tags := []; images := None; rating := None; in_stock := true;
         stock_qty := None |}
  end.

(** Validation of [images: List[ProductImage]]: every image needs its
    [url] (schemas.py:15-17). *)
Fixpoint validate_images (imgs : list ProductImage) : option (list ProductImageOut) :=
  match imgs with
  | [] => Some []
  | img :: rest =>
      match url img, validate_images rest with
      | Some u, Some outs => Some ({| io_url := u; io_alt := alt img |} :: outs)
      | _, _ => None
      end
  end.

(** The fields of [ProductOut(...)] whose constraints fail (schemas.py:20-29):
    [title] is required, [price] is at least 0, every image has a url,
    [rating] is within 0..5 and [stock_qty] is at least 0. *)
Definition ProductOut_errors (t : option string) (p : float)
    (imgs : option (list ProductImageOut)) (r : float) (stock : Z) : list string :=
  ((match t with Some _ => [] | None => ["title"] end)
   ++ (if ge_int p 0 then [] else ["price"])
   ++ (match imgs with Some _ => [] | None => ["images"] end)
   ++ (if ge_int r 0 && le_int r 5 then [] else ["rating"])
   ++ (if 0 <=? stock then [] else ["stock_qty"]))%list.

(** [serialize_product(doc)] (main.py:27-39) for the document stored under
    [oid]: the arguments are evaluated in order, absent keys take the given
    defaults, and the model is validated. *)
Definition serialize_product (oid : N) (doc : Document) : Try ProductOut :=
  let d := product_view doc in
  let id := str_ObjectId oid in
  let t := title d in
  let descr := match description d with Some s => Some s | None => Some "" end in
  match py_float (default (Int 0) (price d)) with
  | Raise e => Fail (Exc e)
  | Return p =>
      let imgs := validate_images (default [] (images d)) in
      let r := default zero (rating d) in
      let stock := default 0 (stock_qty d) in
      match t, imgs, ProductOut_errors t p imgs r stock with
      | Some t', Some imgs', [] =>
          Done {| po_id := id; po_title := t'; po_description := descr;
                  po_price := p; po_category := category d; po_tags := tags d;
                  po_images := imgs'; po_rating := Some r;
                  po_in_stock := in_stock d; po_stock_qty := Some stock |}
      | _, _, errors => Fail (ValidationError errors)
      end
  end.

(** The filter that [list_products] builds (main.py:121-125): an empty [q]
    or [category] counts as absent. *)
Record ProductFilter := {
  title_regex : option string;
  category_is : option string
}.

Definition truthy (s : option string) : option string :=
  match s with
  | Some "" => None
  | other => other
  end.

Definition filter_dict (q cat : option string) : ProductFilter :=
  {| title_regex := truthy q; category_is := truthy cat |}.

(** The one product that is listed when no store is configured
    (main.py:103-119). *)
Definition static_demo : ProductOut :=
  {| po_id := "1";
     po_title := "Rose Luxe Perfume Gift Set";
     po_description := Some "An elegant duo of eau de parfum and travel spray in a velvet keepsake box.";
     po_price := nearest false 89 1;
     po_category := Some "Fragrances";
     po_tags := ["perfume"; "valentine"; "luxury"; "gift"];
     po_images := [ {| io_url := "https://images.unsplash.com/photo-1611930022073-b7a4ba5fcccd";
                       io_alt := Some "Perfume bottle" |} ];
     po_rating := Some (nearest false 49 10);
     po_in_stock := true;
     po_stock_qty := Some 120 |}.

(** [[serialize_product(d) for d in docs]] *)
Fixpoint serialize_all (docs : list (N * Document)) : Try (list ProductOut) :=
  match docs with
  | [] => Done []
  | (oid, doc) :: rest =>
      match serialize_product oid doc with
      | Fail f => Fail f
      | Done out =>
          match serialize_all rest with
          | Fail f => Fail f
          | Done outs => Done (out :: outs)
          end
      end
  end.

Section ListProducts.

(** [database.get_documents] is imported by [main.py] but is not among the
    sources; [list_products] is stated for any function in its place. *)
Variable get_documents : string -> ProductFilter -> M (list (N * Document)).

Definition list_products (q cat : option string) (w : World)
  : World * Try (list ProductOut) :=
  match db w with
  | None => (w, Done [static_demo])
  | Some _ =>
      match get_documents "product" (filter_dict q cat) w with
      | (w', Raise e) => (w', Fail (Exc e))
      | (w', Return docs) => (w', serialize_all docs)
      end
  end.

End ListProducts.

(** ** Seeding (main.py:43-90) *)

Definition demo_product (t descr : string) (p : float) (cat : string)
    (tgs : list string) (img img_alt : string) (r : float) (stock : Z) : Product :=
  {| title := Some t;
     description := Some descr;
     price := Some (Float p);
     category := Some cat;
     tags := tgs;
     images := Some [ {| url := Some img; alt := Some img_alt |} ];
     rating := Some r;
     in_stock := true;
     stock_qty := Some stock |}.

(** The list [demo] of [seed_products] (main.py:49-89). *)
Definition demo : list Document :=
  [ ProductDocument
      (demo_product "Rose Luxe Perfume Gift Set"
         "An elegant duo of eau de parfum and travel spray in a velvet keepsake box."
         (nearest false 89 1) "Fragrances" ["perfume"; "valentine"; "luxury"; "gift"]
         "https://images.unsplash.com/photo-1611930022073-b7a4ba5fcccd" "Perfume bottle"
         (nearest false 49 10) 120);
    ProductDocument
      (demo_product "Artisanal Chocolate Hamper"
         "Curated Belgian chocolates with roasted nuts, sea salt caramels and truffles."
         (nearest false 59 1) "Gourmet" ["chocolate"; "hamper"; "birthday"]
         "https://images.unsplash.com/photo-1541976076758-347942db1970" "Chocolate gift"
         (nearest false 47 10) 80);
    ProductDocument
      (demo_product "Personalized Bamboo Organizer"
         "Engraved desk organizer crafted from sustainable bamboo."
         (nearest false 35 1) "Personalized" ["desk"; "bamboo"; "personalized"]
         "https://images.unsplash.com/photo-1524758631624-e2822e304c36" "Desk organizer"
         (nearest false 46 10) 50) ].

(** [coll.count_documents({})] *)
Definition count_documents (c : gmap N Document) : nat := size c.

(** [coll.insert_many(docs)]: each document is stored, in order, under an
    identifier that the store generates. *)
Fixpoint insert_many (docs : list Document) (c : gmap N Document) : gmap N Document :=
  match docs with
  | [] => c
  | doc :: rest => insert_many rest (<[fresh (dom c) := doc]> c)
  end.

(** [seed_products()], run once at startup on the handle [db]: nothing
    without a store; on a store whose "product" collection is empty the
    three demonstration products are inserted. An unreachable store makes
    the count raise. *)
Definition seed_products (handle : option Database) : Result (option Database) :=
  match handle with
  | None => Return None
  | Some d =>
      if connected d then
        if (count_documents (collection d "product") =? 0)%nat then
          Return (Some {|
            collections :=
              <["product" := insert_many demo (collection d "product")]> (collections d);
            connected := connected d |})
        else Return (Some d)
      else Raise PyMongoError
  end.

(** A reachable store that holds one order and no product yet. *)
Definition gift_card_order : OrderDoc :=
  order_doc_of gift_card_request
    [ {| li_product_id := oid_of "4";
         li_title := "Gift Card";
         li_price := nearest false 10125 1000;
         li_quantity := 1;
         li_image := None;
         li_line_total := nearest false 1012 100 |} ].

Definition orders_only_store : Database :=
  {| collections := {[ "order" := {[ 7%N := OrderDocument gift_card_order ]} ]};
     connected := true |}.

(** The first url of a listed product, as [checkout] would read it. *)
Definition first_listed_url (out : ProductOut) : option string :=
  match po_images out with
  | img :: _ => Some (io_url img)
  | [] => None
  end.

(** The bounds of [schemas.Product] on a listed product. *)
Definition ProductOut_valid (out : ProductOut) : bool :=
  ge_int (po_price out) 0
  && match po_rating out with Some r => ge_int r 0 && le_int r 5 | None => true end
  && match po_stock_qty out with Some n => 0 <=? n | None => true end.

(** A product document without a price, stored under the identifier 7 of an
    otherwise empty store. *)
Definition unpriced : Product :=
  {| title := Some "Mystery Box"; description := None; price := None;
     category := None; tags := []; images := None; rating := None;
     in_stock := true; stock_qty := None |}.

Definition unpriced_store : Database :=
  {| collections := {[ "product" := {[ 7%N := ProductDocument unpriced ]} ]};
     connected := true |}.

(** A product document without a title. *)
Definition untitled : Product :=
  {| title := None; description := None; price := Some (Int 5);
     category := None; tags := []; images := None; rating := None;
     in_stock := true; stock_qty := None |}.

(** A stand-in for [get_documents] that returns two given documents. *)
Definition two_documents (a b : N * Document) : string -> ProductFilter -> M (list (N * Document)) :=
  fun _ _ w => (w, Return [a; b]).

(** * Properties *)

(** ** Floating-point facts *)

Lemma mul_comm (x y : float) : mul x y = mul y x.
Proof.
  unfold mul.
  destruct x as [sx|sx| |sx mx ex], y as [sy|sy| |sy my ey]; simpl;
    rewrite ?(xorb_comm sx sy); try reflexivity.
  now rewrite Pos.mul_comm, Z.add_comm.
Qed.

Lemma of_int_nearest (n : Z) (x : float) : of_int n = Some x -> x = nearest_int n.
Proof.
  unfold of_int. destruct (nearest_int n); intros H; now inversion H.
Qed.

Lemma mul_int_raw (x : float) (n : Z) :
  is_Some (of_int n) -> mul_int x n = Return (mul x (nearest_int n)).
Proof.
  intros [y Hy]. unfold mul_int. rewrite Hy. now rewrite (of_int_nearest _ _ Hy).
Qed.

Lemma mul_int_overflow (x : float) (n : Z) :
  of_int n = None -> mul_int x n = Raise OverflowError.
Proof. intros H. unfold mul_int. now rewrite H. Qed.

(** Every int below 2^53 in magnitude converts to a float. *)
Lemma digits2_pos_shift (m k : positive) :
  digits2_pos (Pos.iter xO m k) = (digits2_pos m + k)%positive.
Proof.
  induction k using Pos.peano_ind.
  - simpl. lia.
  - rewrite Pos.iter_succ. simpl. rewrite IHk. lia.
Qed.

Lemma digits2_pos_size (m : positive) : digits2_pos m = Pos.size m.
Proof. induction m; simpl; congruence. Qed.

Lemma digits2_pos_bound (m : positive) :
  Zpos m < 2 ^ 53 -> Zpos (digits2_pos m) <= 53.
Proof.
  intros Hm. rewrite digits2_pos_size.
  destruct (Z_le_gt_dec (Zpos (Pos.size m)) 53) as [H|H]; [exact H|exfalso].
  assert (H2 : 2 ^ 54 <= 2 ^ Zpos (Pos.size m)) by (apply Z.pow_le_mono_r; lia).
  pose proof (Pos.size_le m) as Hle.
  assert (H3 : 2 ^ 54 = 2 * 2 ^ 53) by reflexivity. lia.
Qed.

Lemma binary_round_aux_canonical (s : bool) (m : positive) (e : Z) :
  Zpos (digits2_pos m) = 53 -> -52 <= e <= 0 ->
  binary_round_aux prec emax s (Zpos m) e loc_Exact = S754_finite s m e.
Proof.
  intros Hd He.
  assert (Hfexp : fexp prec emax (Zpos (digits2_pos m) + e) - e = 0).
  { unfold fexp, emin, prec, emax. rewrite Hd. lia. }
  unfold binary_round_aux, shr_fexp. cbn [Zdigits2 shr_record_of_loc].
  rewrite Hfexp. cbn [shr shr_m loc_of_shr_record round_nearest_even Zdigits2].
  rewrite Hfexp. cbn [shr shr_m].
  replace (e <=? emax - prec) with true; [reflexivity|].
  symmetry. apply Z.leb_le. unfold emax, prec. lia.
Qed.

Lemma of_int_small (n : Z) : Z.abs n < 2 ^ 53 -> is_Some (of_int n).
Proof.
  intros Hn. unfold of_int, nearest_int, binary_normalize.
  destruct n as [|m|m]; [now eexists| |];
    (assert (Hm : Zpos m < 2 ^ 53) by (simpl in Hn; lia);
     pose proof (digits2_pos_bound m Hm) as Hd;
     unfold binary_round, shl_align;
     assert (Hfexp : fexp prec emax (Zpos (digits2_pos m) + 0) - 0
                     = Zpos (digits2_pos m) - 53)
       by (unfold fexp, emin, prec, emax; lia);
     rewrite Hfexp;
     destruct (Zpos (digits2_pos m) - 53) as [|k|k] eqn:Hk; [|lia|]).
  - replace (fexp prec emax (Zpos (digits2_pos m) + 0)) with 0 by lia.
    rewrite binary_round_aux_canonical by lia. now eexists.
  - replace (fexp prec emax (Zpos (digits2_pos m) + 0)) with (Zneg k) by lia.
    rewrite binary_round_aux_canonical; [now eexists| |lia].
    rewrite digits2_pos_shift. lia.
  - replace (fexp prec emax (Zpos (digits2_pos m) + 0)) with 0 by lia.
    rewrite binary_round_aux_canonical by lia. now eexists.
  - replace (fexp prec emax (Zpos (digits2_pos m) + 0)) with (Zneg k) by lia.
    rewrite binary_round_aux_canonical; [now eexists| |lia].
    rewrite digits2_pos_shift. lia.
Qed.

(** An int too large for a float: [float(2 ** 1024)] raises. *)
Example of_int_overflow : of_int (2 ^ 1024) = None.
Proof. vm_compute. reflexivity. Qed.

Lemma round2_f6_99 : round2 f6_99 = f6_99.
Proof. vm_compute. reflexivity. Qed.

Lemma f6_99_bits : f6_99 = S754_finite false 7870040348829942 (-50).
Proof. vm_compute. reflexivity. Qed.

Lemma f0_08_bits : f0_08 = S754_finite false 5764607523034235 (-56).
Proof. vm_compute. reflexivity. Qed.

(** [round(x, 2)] rounds the exact binary value, ties to even: 0.125 gives
    0.12, 0.375 gives 0.38, 2.675 (stored slightly below) gives 2.67, a
    negative number that rounds to nothing gives -0.0, and an integral
    float is returned as it is. *)
Example round2_examples :
  round2 (nearest false 125 1000) = nearest false 12 100
  /\ round2 (nearest false 375 1000) = nearest false 38 100
  /\ round2 (nearest false 2675 1000) = nearest false 267 100
  /\ round2 (nearest true 1 1000) = S754_zero true
  /\ round2 (nearest false 89 1) = nearest false 89 1
  /\ round2 (S754_infinity false) = S754_infinity false
  /\ round2 S754_nan = S754_nan.
Proof. repeat split; vm_compute; reflexivity. Qed.

Example sample_products_valid :
  forallb Product_valid
    [rose_luxe; chocolate_hamper; bamboo_organizer; gift_card; ribbon; sticker] = true.
Proof. vm_compute. reflexivity. Qed.

(** ** The monad *)

Lemma bind_return {A B} (c : M A) (k : A -> M B) w w' a :
  c w = (w', Return a) -> bind c k w = k a w'.
Proof. intros H. unfold bind. now rewrite H. Qed.

Lemma bind_raise {A B} (c : M A) (k : A -> M B) w w' e :
  c w = (w', Raise e) -> bind c k w = (w', Raise e).
Proof. intros H. unfold bind. now rewrite H. Qed.

(** ** Product resolution *)

Lemma resolve_world (item : CartItem) (w : World) :
  fst (resolve item w)
  = {| db := db w; calls := (calls w ++ resolve_calls (db w) item)%list |}.
Proof.
  unfold resolve, resolve_calls, bind, get_db, try_except, lookup_product, bind, lift,
    find_one, bind, log, ret, raise.
  destruct w as [[d|] cs]; simpl.
  - destruct (ObjectId (product_id item)) as [oid|e]; simpl.
    + destruct (connected d); simpl.
      * destruct (collection d "product" !! oid) as [doc|]; simpl; [|reflexivity].
        destruct (getitem_price doc) as [v|]; simpl; [|reflexivity].
        destruct (py_float v); simpl; [|reflexivity].
        destruct (getitem_title doc); reflexivity.
      * reflexivity.
    + now rewrite app_nil_r.
  - now rewrite app_nil_r.
Qed.

Lemma resolve_result (item : CartItem) (w1 w2 : World) :
  db w1 = db w2 -> snd (resolve item w1) = snd (resolve item w2).
Proof.
  intros Hdb.
  unfold resolve, bind, get_db, try_except, lookup_product, bind, lift,
    find_one, bind, log, ret, raise.
  rewrite Hdb. destruct (db w2) as [d|]; simpl; [|reflexivity].
  destruct (ObjectId (product_id item)) as [oid|e]; simpl; [|reflexivity].
  destruct (connected d); simpl; [|reflexivity].
  destruct (collection d "product" !! oid) as [doc|]; simpl; [|reflexivity].
  destruct (getitem_price doc) as [v|]; simpl; [|reflexivity].
  destruct (py_float v); simpl; [|reflexivity].
  destruct (getitem_title doc); reflexivity.
Qed.

Lemma resolve_calls_read (d : option Database) (item : CartItem) :
  Forall product_read (resolve_calls d item).
Proof.
  unfold resolve_calls. destruct d; [|constructor].
  destruct (ObjectId (product_id item)); repeat constructor.
Qed.

(** On a configured store the resolution either returns or raises the one
    client error of the handler (main.py:182-183). *)
Lemma resolve_raises (item : CartItem) (w w' : World) (e : Exception) :
  resolve item w = (w', Raise e) ->
  db w <> None /\ e = HTTPException 400 "Invalid product id".
Proof.
  unfold resolve, bind, get_db, try_except, ret, raise.
  destruct (db w) as [d|]; [|discriminate].
  destruct (lookup_product d item w) as [w1 [r|e1]]; [discriminate|].
  intros H. inversion H. split; [discriminate|reflexivity].
Qed.

Lemma resolve_unresolvable (d : Database) (item : CartItem) (w : World) :
  db w = Some d -> unresolvable d item ->
  snd (resolve item w) = Raise (HTTPException 400 "Invalid product id").
Proof.
  intros Hdb Hu.
  unfold resolve, bind, get_db, try_except, lookup_product, bind, lift,
    find_one, bind, log, ret, raise.
  rewrite Hdb; simpl.
  destruct Hu as [Hid | oid Hid Hc | oid Hid Hc Hl | oid doc e Hid Hc Hl Hd];
    rewrite Hid; simpl; trivial; rewrite Hc; simpl; trivial; rewrite Hl; simpl; trivial.
  destruct Hd as [Hp | [(v & Hp & Hf) | Ht]].
  - now rewrite Hp.
  - rewrite Hp; simpl. now rewrite Hf.
  - destruct (getitem_price doc) as [v|]; simpl; trivial.
    destruct (py_float v); simpl; trivial. now rewrite Ht.
Qed.

Lemma priceable_db (w1 w2 : World) (item : CartItem) :
  db w1 = db w2 -> priceable w1 item -> priceable w2 item.
Proof.
  intros Hdb [[r Hr] Hq]. split; [|exact Hq].
  exists r. now rewrite <- (resolve_result item w1 w2 Hdb).
Qed.

(** A lookup that returns was answered by a reachable store. *)
Lemma resolve_connected (d : Database) (item : CartItem) (w : World)
    (r : float * string * option string) :
  db w = Some d -> snd (resolve item w) = Return r -> connected d = true.
Proof.
  intros Hdb.
  unfold resolve, bind, get_db, try_except, lookup_product, bind, lift,
    find_one, bind, log, ret, raise.
  rewrite Hdb; simpl.
  destruct (ObjectId (product_id item)) as [oid|e]; simpl; [|discriminate].
  destruct (connected d); simpl; [reflexivity|discriminate].
Qed.

Lemma priceable_connected (d : Database) (item : CartItem) (w : World) :
  db w = Some d -> priceable w item -> connected d = true.
Proof. intros Hdb [[r Hr] _]. exact (resolve_connected d item w r Hdb Hr). Qed.

Lemma line_of_db (w1 w2 : World) (item : CartItem) (li : LineItem) :
  db w1 = db w2 -> line_of w1 item li -> line_of w2 item li.
Proof.
  intros Hdb (Hr & H). split; [|exact H].
  now rewrite <- (resolve_result item w1 w2 Hdb).
Qed.

(** ** The loop *)

(** Whatever the outcome, the loop leaves [db] alone and only reads
    products. *)
Lemma checkout_loop_frame (its : list CartItem) :
  forall out sub w,
    exists new,
      fst (checkout_loop its out sub w)
      = {| db := db w; calls := (calls w ++ new)%list |}
      /\ Forall product_read new.
Proof.
  induction its as [|item rest IH]; intros out sub w; simpl.
  - exists []. rewrite app_nil_r. destruct w; split; [reflexivity|constructor].
  - unfold bind at 1.
    pose proof (resolve_world item w) as Hw.
    destruct (resolve item w) as [w1 [[[p t] i]|e]]; simpl in Hw; subst w1.
    + unfold bind at 1, lift at 1.
      destruct (mul_int p (quantity item)) as [lt|e]; simpl.
      * match goal with |- context [checkout_loop rest ?o ?s ?w1] =>
          destruct (IH o s w1) as (new & Hnew & Hread); rewrite Hnew end.
        simpl. exists (resolve_calls (db w) item ++ new)%list.
        rewrite app_assoc. split; [reflexivity|].
        apply Forall_app. split; [apply resolve_calls_read|exact Hread].
      * exists (resolve_calls (db w) item). split; [reflexivity|apply resolve_calls_read].
    + exists (resolve_calls (db w) item). split; [reflexivity|apply resolve_calls_read].
Qed.

(** When every item is priceable the loop returns the emitted lines and the
    running sum of their unrounded products. *)
Lemma checkout_loop_ok (its : list CartItem) :
  forall out sub w,
    Forall (priceable w) its ->
    exists w' lines,
      checkout_loop its out sub w
      = (w', Return ((out ++ lines)%list,
                     fold_left add (map raw_line_total lines) sub))
      /\ Forall2 (line_of w) its lines.
Proof.
  induction its as [|item rest IH]; intros out sub w Hall; simpl.
  - exists w, []. rewrite app_nil_r. split; [reflexivity|constructor].
  - inversion Hall as [|? ? [[r Hr] Hq] Hrest]; subst.
    pose proof (resolve_world item w) as Hw.
    destruct (resolve item w) as [w1 res] eqn:Hres; simpl in Hr, Hw. subst res.
    destruct r as [[p t] i].
    assert (Hdb : db w = db w1) by now subst w1.
    unfold bind at 1. rewrite Hres.
    unfold bind at 1, lift at 1. rewrite (mul_int_raw p _ Hq).
    match goal with |- context [checkout_loop rest ?o ?s w1] =>
      destruct (IH o s w1) as (w' & lines & Hloop & Hlines);
        [ eapply Forall_impl; [exact Hrest|]; intros a; apply priceable_db, Hdb
        | rewrite Hloop ]
    end.
    set (li := {| li_product_id := product_id item; li_title := t; li_price := p;
                  li_quantity := quantity item; li_image := i;
                  li_line_total := round2 (mul p (nearest_int (quantity item))) |}).
    exists w', (li :: lines). split.
    + now rewrite <- app_assoc.
    + constructor.
      * unfold line_of. rewrite Hres. simpl. repeat split; reflexivity.
      * eapply Forall2_impl; [exact Hlines|].
        intros a b. apply line_of_db. now symmetry.
Qed.

(** Conversely, the loop returns only when every item is priceable. *)
Lemma checkout_loop_returns (its : list CartItem) :
  forall out sub w w' acc,
    checkout_loop its out sub w = (w', Return acc) -> Forall (priceable w) its.
Proof.
  induction its as [|item rest IH]; intros out sub w w' acc H; [constructor|].
  simpl in H. unfold bind at 1 in H.
  pose proof (resolve_world item w) as Hw.
  destruct (resolve item w) as [w1 [[[p t] i]|e]] eqn:Hres; [|discriminate].
  simpl in Hw.
  unfold bind at 1, lift at 1 in H.
  unfold mul_int in H.
  destruct (of_int (quantity item)) as [y|] eqn:Hq; [|discriminate].
  constructor.
  - split; [exists (p, t, i); now rewrite Hres | now exists y].
  - apply IH in H. eapply Forall_impl; [exact H|].
    intros a. apply priceable_db. now subst w1.
Qed.

(** An item that does not resolve makes the loop raise the handler's error,
    whatever the reason of the failure. *)
Lemma checkout_loop_unresolvable (d : Database) (its : list CartItem) :
  forall out sub w,
    db w = Some d ->
    Forall (fun item => is_Some (of_int (quantity item))) its ->
    Exists (unresolvable d) its ->
    snd (checkout_loop its out sub w)
    = Raise (HTTPException 400 "Invalid product id").
Proof.
  induction its as [|item rest IH]; intros out sub w Hdb Hq Hex.
  - inversion Hex.
  - inversion Hq as [|? ? Hq1 Hq2]; subst. simpl. unfold bind at 1.
    pose proof (resolve_world item w) as Hw.
    destruct (resolve item w) as [w1 [[[p t] i]|e]] eqn:Hres; simpl in Hw.
    + unfold bind at 1, lift at 1. rewrite (mul_int_raw p _ Hq1).
      inversion Hex as [? ? Hu|? ? Hu]; subst.
      * pose proof (resolve_unresolvable d item w Hdb Hu) as Hr.
        rewrite Hres in Hr. discriminate.
      * apply IH; [exact Hdb|exact Hq2|exact Hu].
    + apply resolve_raises in Hres. destruct Hres as [_ ->]. reflexivity.
Qed.

(** ** Persistence *)

Lemma collection_insert_eq (m : gmap string (gmap N Document)) (b : bool)
    (name : string) (c : gmap N Document) :
  collection {| collections := <[name := c]> m; connected := b |} name = c.
Proof. unfold collection. cbn [collections]. now rewrite lookup_insert_eq. Qed.

Lemma collection_insert_ne (m : gmap string (gmap N Document)) (b : bool)
    (name other : string) (c : gmap N Document) :
  name <> other ->
  collection {| collections := <[name := c]> m; connected := b |} other
  = collection {| collections := m; connected := b |} other.
Proof.
  intros Hne. unfold collection. cbn [collections]. now rewrite lookup_insert_ne.
Qed.

Lemma create_document_products (name : string) (doc : Document) (w : World) :
  name <> "product" ->
  products (fst (create_document name doc w)) = products w.
Proof.
  intros Hne. unfold create_document, bind, get_db, log, raise, products.
  destruct (db w) as [d|] eqn:Hdb; cbn [fst db fmap option_fmap option_map];
    [|now rewrite Hdb].
  destruct (connected d) eqn:Hc; cbn [fst db fmap option_fmap option_map];
    [|now rewrite Hdb].
  f_equal. rewrite collection_insert_ne by exact Hne. destruct d. cbn in Hc. now subst.
Qed.

Lemma create_document_orders (doc : Document) (w : World) (d d' : Database) :
  db w = Some d ->
  db (fst (create_document "order" doc w)) = Some d' ->
  (forall oid old, collection d "order" !! oid = Some old ->
                   collection d' "order" !! oid = Some old)
  /\ (connected d = true ->
      exists oid, collection d "order" !! oid = None
                  /\ collection d' "order" !! oid = Some doc).
Proof.
  intros Hdb. unfold create_document, bind, get_db, log, raise.
  rewrite Hdb. cbn [fst db].
  destruct (connected d) eqn:Hc; cbn [fst db]; rewrite ?Hdb;
    intros H; inversion H; subst d'; clear H; [|split; [auto|discriminate]].
  rewrite collection_insert_eq.
  pose proof (is_fresh (dom (collection d "order"))) as Hfresh.
  split.
  - intros oid old Hold. rewrite lookup_insert_ne; [exact Hold|].
    intros <-. apply Hfresh. apply elem_of_dom. now exists old.
  - intros _. exists (fresh (dom (collection d "order"))). split.
    + now apply not_elem_of_dom.
    + now rewrite lookup_insert_eq.
Qed.

(** On a reachable store the insert returns the new identifier. *)
Lemma create_document_returns (name : string) (doc : Document) (w : World)
    (d : Database) :
  db w = Some d -> connected d = true ->
  exists oid, snd (create_document name doc w) = Return oid.
Proof.
  intros Hdb Hc. unfold create_document, bind, get_db, log, raise.
  rewrite Hdb. cbn [fst snd db]. rewrite Hc. now eexists.
Qed.

Lemma create_document_calls (name : string) (doc : Document) (w : World) :
  db w <> None ->
  calls (fst (create_document name doc w)) = (calls w ++ [InsertOne name doc])%list.
Proof.
  unfold create_document, bind, get_db, log, raise.
  destruct (db w) as [d|]; [|congruence]. now destruct (connected d).
Qed.

(** ** checkout *)

(** Without a store the loop issues no call at all. *)
Lemma checkout_loop_no_store (its : list CartItem) :
  forall out sub w, db w = None -> fst (checkout_loop its out sub w) = w.
Proof.
  induction its as [|item rest IH]; intros out sub w Hdb; [reflexivity|].
  simpl. unfold bind at 1.
  assert (Hres : resolve item w = (w, Return (f49_0, "Gift Item", Some mock_image))).
  { unfold resolve, bind, get_db. now rewrite Hdb. }
  rewrite Hres. unfold bind at 1, lift at 1.
  destruct (mul_int f49_0 (quantity item)); [|reflexivity].
  now apply IH.
Qed.

Lemma add_number_shipping (sub : float) :
  add_number sub (if ge_int sub 75 then Int 0 else Float f6_99)
  = Return (add sub (if ge_int sub 75 then zero else f6_99)).
Proof. destruct (ge_int sub 75); reflexivity. Qed.

Lemma checkout_ok (payload : CheckoutRequest) (w : World) :
  items payload <> [] ->
  Forall (priceable w) (items payload) ->
  exists w' lines,
    checkout payload w = (w', Return (response_of lines))
    /\ Forall2 (line_of w) (items payload) lines
    /\ (db w = None -> w' = w).
Proof.
  intros Hne Hall. unfold checkout.
  destruct (items payload) as [|i0 rest] eqn:Hits; [congruence|].
  destruct (checkout_loop_ok (i0 :: rest) [] zero w Hall) as (w1 & lines & Hloop & Hlines).
  pose proof (checkout_loop_frame (i0 :: rest) [] zero w) as (new & Hw1 & _).
  rewrite Hloop in Hw1. simpl in Hw1.
  rewrite (bind_return _ _ _ _ _ Hloop). simpl app.
  fold (raw_subtotal lines).
  unfold bind at 1, lift at 1. rewrite add_number_shipping.
  unfold bind at 1, get_db at 1. simpl.
  destruct (db w1) as [d|] eqn:Hdb.
  - unfold bind at 1. unfold bind at 1.
    destruct (create_document _ _ w1) as [w2 [oid|e]] eqn:Hcd.
    + unfold ret. eexists w2, lines. split; [reflexivity|]. split; [exact Hlines|].
      intros Hnone. subst w1. simpl in Hdb. congruence.
    + exfalso.
      assert (Hc : connected d = true).
      { assert (Hdbw : db w = Some d) by (rewrite <- Hdb; now rewrite Hw1).
        inversion Hall as [|? ? Hp _].
        exact (priceable_connected d i0 w Hdbw Hp). }
      match type of Hcd with create_document ?n ?doc _ = _ =>
        destruct (create_document_returns n doc w1 d Hdb Hc) as [oid Hoid] end.
      rewrite Hcd in Hoid. discriminate.
  - unfold bind at 1, ret. exists w1, lines. split; [reflexivity|]. split; [exact Hlines|].
    intros Hnone.
    pose proof (checkout_loop_no_store (i0 :: rest) [] zero w Hnone) as Hfix.
    now rewrite Hloop in Hfix.
Qed.

(** The two ways a request ends: an exception after product reads only, or
    a response after the reads and, on a configured store, one insert into
    "order". *)
Lemma checkout_cases (payload : CheckoutRequest) (w : World) :
  (exists e w' new,
      checkout payload w = (w', Raise e)
      /\ w' = {| db := db w; calls := (calls w ++ new)%list |}
      /\ Forall product_read new)
  \/ (exists r w1 w' new,
         checkout payload w = (w', Return r)
         /\ w1 = {| db := db w; calls := (calls w ++ new)%list |}
         /\ Forall product_read new
         /\ ((db w = None /\ w' = w1)
             \/ (db w <> None
                 /\ exists o, w' = fst (create_document "order" (OrderDocument o) w1)))).
Proof.
  unfold checkout.
  destruct (items payload) as [|i0 rest].
  { left. exists (HTTPException 400 "Cart is empty"), w, [].
    rewrite app_nil_r. destruct w. repeat split; constructor. }
  destruct (checkout_loop_frame (i0 :: rest) [] zero w) as (new & Hw1 & Hread).
  destruct (checkout_loop (i0 :: rest) [] zero w) as [w1 [[lines sub]|e]] eqn:Hloop;
    cbn [fst] in Hw1.
  - right. rewrite (bind_return _ _ _ _ _ Hloop).
    unfold bind at 1, lift at 1. rewrite add_number_shipping.
    unfold bind at 1, get_db at 1. cbn [snd fst].
    assert (Hdb : db w1 = db w) by now subst w1.
    destruct (db w1) as [d|] eqn:Hd.
    + unfold bind at 1. unfold bind at 1.
      destruct (create_document _ _ w1) as [w2 [oid|e]] eqn:Hcd.
      * unfold ret. eexists _, w1, w2, new. split; [reflexivity|].
        split; [exact Hw1|]. split; [exact Hread|]. right.
        split; [congruence|]. eexists. now rewrite Hcd.
      * exfalso.
        assert (Hc : connected d = true).
        { apply checkout_loop_returns in Hloop.
          inversion Hloop as [|? ? Hp _].
          apply (priceable_connected d i0 w); [congruence|exact Hp]. }
        match type of Hcd with create_document ?n ?doc _ = _ =>
          destruct (create_document_returns n doc w1 d Hd Hc) as [oid Hoid] end.
        rewrite Hcd in Hoid. discriminate.
    + unfold bind at 1, ret. eexists _, w1, w1, new. split; [reflexivity|].
      split; [exact Hw1|]. split; [exact Hread|]. left. split; [congruence|reflexivity].
  - left. rewrite (bind_raise _ _ _ _ _ Hloop).
    exists e, w1, new. repeat split; assumption.
Qed.

(** A reference to a stored, well-formed product with a quantity in the
    float range is priceable. *)
Lemma valid_reference_priceable (d : Database) (w : World) (item : CartItem)
    (oid : N) (p : Product) (v : Number) (x : float) (t : string) :
  db w = Some d -> connected d = true ->
  ObjectId (product_id item) = Return oid ->
  collection d "product" !! oid = Some (ProductDocument p) ->
  price p = Some v -> py_float v = Return x -> title p = Some t ->
  is_Some (of_int (quantity item)) ->
  priceable w item.
Proof.
  intros Hdb Hc Hid Hl Hp Hf Ht Hq. split; [|exact Hq].
  exists (x, t, first_image_url (ProductDocument p)).
  unfold resolve, bind, get_db, try_except, lookup_product, bind, lift,
    find_one, bind, log, ret, raise.
  rewrite Hdb; cbn [snd fst]. rewrite Hid; cbn [snd fst]. rewrite Hc; cbn [snd fst].
  rewrite Hl; cbn [snd fst]. unfold getitem_price, getitem_title.
  rewrite Hp; cbn [snd fst]. rewrite Hf; cbn [snd fst]. now rewrite Ht.
Qed.

(** The request returns exactly when the cart is non-empty and every item is
    priceable. *)
Lemma checkout_returns_iff (payload : CheckoutRequest) (w : World) :
  (exists w' r, checkout payload w = (w', Return r))
  <-> items payload <> [] /\ Forall (priceable w) (items payload).
Proof.
  split.
  - intros (w' & r & H). unfold checkout in H.
    destruct (items payload) as [|i0 rest] eqn:Hits; [discriminate|].
    split; [discriminate|].
    destruct (checkout_loop (i0 :: rest) [] zero w) as [w1 [acc|e]] eqn:Hloop.
    + now apply checkout_loop_returns in Hloop.
    + rewrite (bind_raise _ _ _ _ _ Hloop) in H. discriminate.
  - intros [Hne Hall].
    destruct (checkout_ok payload w Hne Hall) as (w' & lines & H & _).
    now exists w', (response_of lines).
Qed.

Local Ltac priceable_now :=
  repeat constructor; try (eexists; vm_compute; reflexivity).

(** ** The spec's two worked examples (section 8) *)

Example checkout_rose_luxe :
  snd (checkout (request_of [cart_item "1" 1]) demo_world)
  = Return (response_of
      [ {| li_product_id := oid_of "1"; li_title := "Rose Luxe Perfume Gift Set";
           li_price := nearest false 89 1; li_quantity := 1;
           li_image := Some "https://images.unsplash.com/photo-1611930022073-b7a4ba5fcccd";
           li_line_total := nearest false 89 1 |} ])
  /\ forall r, snd (checkout (request_of [cart_item "1" 1]) demo_world) = Return r ->
       r_subtotal r = nearest false 89 1 /\ r_shipping r = Int 0
       /\ r_tax r = nearest false 712 100 /\ r_total r = nearest false 9612 100.
Proof.
  split; [vm_compute; reflexivity|].
  intros r H. vm_compute in H. inversion H; subst r.
  vm_compute. repeat split.
Qed.

Example checkout_bamboo_organizer :
  forall r, snd (checkout (request_of [cart_item "3" 2]) demo_world) = Return r ->
    r_subtotal r = nearest false 70 1 /\ r_shipping r = Float f6_99
    /\ r_tax r = nearest false 560 100 /\ r_total r = nearest false 8259 100.
Proof.
  intros r H. vm_compute in H. inversion H; subst r.
  vm_compute. repeat split.
Qed.

(** ** The total (main.py:198) *)

(** C1, as stated, fails: for the cart with one Gift Card (price 10.125) the
    response has subtotal 10.12, shipping 6.99, tax 0.81 and total 17.93,
    whereas round(10.12 + 6.99 + 0.81, 2) is 17.92. The cart is non-empty
    and its reference is valid. *)
Lemma total_from_rounded_subtotal_counterexample :
  items gift_card_request <> []
  /\ Forall (priceable demo_world) (items gift_card_request)
  /\ exists w' r,
       checkout gift_card_request demo_world = (w', Return r)
       /\ r_subtotal r = nearest false 1012 100
       /\ r_shipping r = Float (nearest false 699 100)
       /\ r_tax r = nearest false 81 100
       /\ r_total r = nearest false 1793 100
       /\ total_of (r_subtotal r) (r_shipping r) (r_tax r)
          = Return (nearest false 1792 100)
       /\ Return (r_total r) <> total_of (r_subtotal r) (r_shipping r) (r_tax r).
Proof.
  split; [discriminate|]. split; [priceable_now|].
  destruct (checkout gift_card_request demo_world) as [w' res] eqn:H.
  vm_compute in H. inversion H as [[Hw Hres]]. clear H Hw.
  eexists _, _. split; [reflexivity|].
  repeat split; try (vm_compute; reflexivity).
  vm_compute. discriminate.
Qed.

(** C1, amended: for every non-empty cart of priceable items the request
    returns a response whose lines are those of the cart, one per item and
    in cart order, each with the price found for the item and the quantity
    asked, and whose total is round(subtotal + shipping + tax, 2) computed
    from the accumulated, unrounded subtotal: the sum of price * quantity
    over these lines. *)
Theorem checkout_total (payload : CheckoutRequest) (w : World) :
  items payload <> [] ->
  Forall (priceable w) (items payload) ->
  exists w' r,
    checkout payload w = (w', Return r)
    /\ Forall2 (line_of w) (items payload) (r_items r)
    /\ Return (r_total r)
       = total_of (raw_subtotal (r_items r)) (r_shipping r) (r_tax r).
Proof.
  intros Hne Hall.
  destruct (checkout_ok payload w Hne Hall) as (w' & lines & H & Hlines & _).
  exists w', (response_of lines). split; [exact H|]. split; [exact Hlines|].
  unfold response_of, total_of, shipping_of; cbn [r_total r_items r_shipping r_tax].
  destruct (ge_int (raw_subtotal lines) 75); cbn [round2_number].
  - reflexivity.
  - rewrite round2_f6_99. reflexivity.
Qed.

(** The amended C1 on a cart of one Gift Card and two Rose Luxe sets. *)
Lemma checkout_total_witness :
  items mixed_request <> []
  /\ Forall (priceable demo_world) (items mixed_request)
  /\ exists w' r,
       checkout mixed_request demo_world = (w', Return r)
       /\ Forall2 (line_of demo_world) (items mixed_request) (r_items r)
       /\ Return (r_total r)
          = total_of (raw_subtotal (r_items r)) (r_shipping r) (r_tax r).
Proof.
  assert (Hne : items mixed_request <> []) by discriminate.
  assert (Hall : Forall (priceable demo_world) (items mixed_request))
    by priceable_now.
  split; [exact Hne|]. split; [exact Hall|].
  exact (checkout_total mixed_request demo_world Hne Hall).
Defined.

(** ** Line totals and the subtotal (main.py:185-194, 204, 223) *)

(** C2, as stated, fails: for the cart with two lines of one Ribbon each
    (price 0.125) both line totals are 0.12, their sum is 0.24, and the
    response's subtotal is 0.25; its tax 0.02 and total 7.26 come from 0.25
    as well. *)
Lemma subtotal_of_rounded_lines_counterexample :
  items two_ribbons_request <> []
  /\ Forall (priceable demo_world) (items two_ribbons_request)
  /\ exists w' r,
       checkout two_ribbons_request demo_world = (w', Return r)
       /\ map li_line_total (r_items r) = [nearest false 12 100; nearest false 12 100]
       /\ round2 (sum_of_line_totals (r_items r)) = nearest false 24 100
       /\ r_subtotal r = nearest false 25 100
       /\ r_total r = nearest false 726 100
       /\ r_subtotal r <> round2 (sum_of_line_totals (r_items r)).
Proof.
  split; [discriminate|]. split; [priceable_now|].
  destruct (checkout two_ribbons_request demo_world) as [w' res] eqn:H.
  vm_compute in H. inversion H as [[Hw Hres]]. clear H Hw.
  eexists _, _. split; [reflexivity|].
  repeat split; try (vm_compute; reflexivity).
  vm_compute. discriminate.
Qed.

(** C2, amended: for every non-empty cart of priceable items the response
    has one line per cart item, in cart order, whose line total is
    price * quantity rounded to 2 decimals; the subtotal is the sum of the
    unrounded products price * quantity, rounded to 2 decimals for the
    response; shipping, tax and total are computed from that unrounded
    sum. *)
Theorem checkout_lines_and_subtotal (payload : CheckoutRequest) (w : World) :
  items payload <> [] ->
  Forall (priceable w) (items payload) ->
  exists w' r,
    checkout payload w = (w', Return r)
    /\ Forall2 (line_of w) (items payload) (r_items r)
    /\ Forall (fun li => li_line_total li
                         = round2 (mul (li_price li) (nearest_int (li_quantity li))))
         (r_items r)
    /\ r_subtotal r = round2 (raw_subtotal (r_items r))
    /\ r_shipping r = shipping_of (raw_subtotal (r_items r))
    /\ r_tax r = round2 (mul (raw_subtotal (r_items r)) f0_08)
    /\ Return (r_total r)
       = total_of (raw_subtotal (r_items r)) (r_shipping r) (r_tax r).
Proof.
  intros Hne Hall.
  destruct (checkout_ok payload w Hne Hall) as (w' & lines & H & Hlines & _).
  exists w', (response_of lines). split; [exact H|].
  cbn [response_of r_items r_subtotal r_shipping r_tax r_total].
  split; [exact Hlines|]. split.
  { clear - Hlines. induction Hlines as [|it li its lis Hl _ IH]; constructor.
    - now destruct Hl as (_ & _ & _ & Hlt).
    - exact IH. }
  split; [reflexivity|].
  assert (Hship : round2_number (shipping_of (raw_subtotal lines))
                  = shipping_of (raw_subtotal lines)).
  { unfold shipping_of. destruct (ge_int (raw_subtotal lines) 75);
      cbn [round2_number]; [reflexivity|now rewrite round2_f6_99]. }
  rewrite Hship. split; [reflexivity|]. split; [reflexivity|].
  unfold total_of, shipping_of. now destruct (ge_int (raw_subtotal lines) 75).
Qed.

(** The amended C2 on the cart of two Ribbon lines. *)
Lemma checkout_lines_and_subtotal_witness :
  items two_ribbons_request <> []
  /\ Forall (priceable demo_world) (items two_ribbons_request)
  /\ exists w' r,
    checkout two_ribbons_request demo_world = (w', Return r)
    /\ Forall2 (line_of demo_world) (items two_ribbons_request) (r_items r)
    /\ Forall (fun li => li_line_total li
                         = round2 (mul (li_price li) (nearest_int (li_quantity li))))
         (r_items r)
    /\ r_subtotal r = round2 (raw_subtotal (r_items r))
    /\ r_shipping r = shipping_of (raw_subtotal (r_items r))
    /\ r_tax r = round2 (mul (raw_subtotal (r_items r)) f0_08)
    /\ Return (r_total r)
       = total_of (raw_subtotal (r_items r)) (r_shipping r) (r_tax r).
Proof.
  assert (Hne : items two_ribbons_request <> []) by discriminate.
  assert (Hall : Forall (priceable demo_world) (items two_ribbons_request))
    by priceable_now.
  split; [exact Hne|]. split; [exact Hall|].
  exact (checkout_lines_and_subtotal two_ribbons_request demo_world Hne Hall).
Defined.

(** ** Shipping (main.py:196) *)

(** C6: for every non-empty cart of priceable items the request returns a
    response whose lines are those of the cart, one per item and in cart
    order, each with the price found for the item and the quantity asked;
    its shipping is the int 0 exactly when the accumulated subtotal, the
    sum of price * quantity over these lines, is at least 75, and is the
    float 6.99 otherwise. *)
Theorem checkout_shipping (payload : CheckoutRequest) (w : World) :
  items payload <> [] ->
  Forall (priceable w) (items payload) ->
  exists w' r,
    checkout payload w = (w', Return r)
    /\ Forall2 (line_of w) (items payload) (r_items r)
    /\ (r_shipping r = Int 0 <-> ge_int (raw_subtotal (r_items r)) 75 = true)
    /\ (ge_int (raw_subtotal (r_items r)) 75 = false ->
        r_shipping r = Float (nearest false 699 100)).
Proof.
  intros Hne Hall.
  destruct (checkout_ok payload w Hne Hall) as (w' & lines & H & Hlines & _).
  exists w', (response_of lines). split; [exact H|]. split; [exact Hlines|].
  cbn [response_of r_items r_shipping]. unfold shipping_of.
  destruct (ge_int (raw_subtotal lines) 75); cbn [round2_number].
  - split; [tauto|discriminate].
  - rewrite round2_f6_99. split; [|reflexivity]. split; discriminate.
Qed.

(** The threshold is inclusive and exact: 75.0 ships free, the float just
    below 75 and 74.99 do not, and neither does nan. *)
Example shipping_threshold :
  shipping_of (nearest false 75 1) = Int 0
  /\ shipping_of (SFpred prec emax (nearest false 75 1)) = Float f6_99
  /\ shipping_of (nearest false 7499 100) = Float f6_99
  /\ shipping_of (S754_infinity false) = Int 0
  /\ shipping_of S754_nan = Float f6_99.
Proof. repeat split; vm_compute; reflexivity. Qed.

(** C6 on a cart of one Gift Card and two Rose Luxe sets, worth 188.125,
    which ships free, and on a cart of one Gift Card, worth 10.125, which
    does not. *)
Lemma checkout_shipping_witness :
  (items mixed_request <> []
   /\ Forall (priceable demo_world) (items mixed_request)
   /\ exists w' r,
     checkout mixed_request demo_world = (w', Return r)
     /\ Forall2 (line_of demo_world) (items mixed_request) (r_items r)
     /\ (r_shipping r = Int 0 <-> ge_int (raw_subtotal (r_items r)) 75 = true)
     /\ (ge_int (raw_subtotal (r_items r)) 75 = false ->
         r_shipping r = Float (nearest false 699 100)))
  /\ (exists w' r,
        checkout mixed_request demo_world = (w', Return r)
        /\ raw_subtotal (r_items r) = nearest false 188125 1000
        /\ r_shipping r = Int 0)
  /\ (exists w' r,
        checkout gift_card_request demo_world = (w', Return r)
        /\ raw_subtotal (r_items r) = nearest false 10125 1000
        /\ r_shipping r = Float (nearest false 699 100)).
Proof.
  assert (Hne : items mixed_request <> []) by discriminate.
  assert (Hall : Forall (priceable demo_world) (items mixed_request))
    by priceable_now.
  split; [|split].
  - split; [exact Hne|]. split; [exact Hall|].
    exact (checkout_shipping mixed_request demo_world Hne Hall).
  - eexists _, _. split; [vm_compute; reflexivity|].
    split; vm_compute; reflexivity.
  - eexists _, _. split; [vm_compute; reflexivity|].
    split; vm_compute; reflexivity.
Defined.

(** ** Tax (main.py:197) *)

(** C7: for every non-empty cart of priceable items the request returns a
    response whose lines are those of the cart, one per item and in cart
    order, each with the price found for the item and the quantity asked;
    its tax is round(0.08 * raw_subtotal, 2), where raw_subtotal is the
    accumulated, unrounded subtotal: the sum of price * quantity over these
    lines. *)
Theorem checkout_tax (payload : CheckoutRequest) (w : World) :
  items payload <> [] ->
  Forall (priceable w) (items payload) ->
  exists w' r,
    checkout payload w = (w', Return r)
    /\ Forall2 (line_of w) (items payload) (r_items r)
    /\ r_tax r = round2 (mul (nearest false 8 100) (raw_subtotal (r_items r))).
Proof.
  intros Hne Hall.
  destruct (checkout_ok payload w Hne Hall) as (w' & lines & H & Hlines & _).
  exists w', (response_of lines). split; [exact H|]. split; [exact Hlines|].
  cbn [response_of r_items r_tax]. now rewrite mul_comm.
Qed.

(** C7 on a cart of one Sticker, worth 0.0625 and taxed 0.01. *)
Lemma checkout_tax_witness :
  (items sticker_request <> []
   /\ Forall (priceable demo_world) (items sticker_request)
   /\ exists w' r,
     checkout sticker_request demo_world = (w', Return r)
     /\ Forall2 (line_of demo_world) (items sticker_request) (r_items r)
     /\ r_tax r = round2 (mul (nearest false 8 100) (raw_subtotal (r_items r))))
  /\ (exists w' r,
        checkout sticker_request demo_world = (w', Return r)
        /\ raw_subtotal (r_items r) = nearest false 625 10000
        /\ r_tax r = nearest false 1 100).
Proof.
  assert (Hne : items sticker_request <> []) by discriminate.
  assert (Hall : Forall (priceable demo_world) (items sticker_request))
    by priceable_now.
  split.
  - split; [exact Hne|]. split; [exact Hall|].
    exact (checkout_tax sticker_request demo_world Hne Hall).
  - eexists _, _. split; [vm_compute; reflexivity|].
    split; vm_compute; reflexivity.
Defined.

(** The rounded subtotal of the response would give another tax: one
    Sticker (price 0.0625) is taxed 0.01, while 0.08 times the displayed
    subtotal 0.06 rounds to 0.0. *)
Example tax_not_from_displayed_subtotal :
  exists w' r,
    checkout sticker_request demo_world = (w', Return r)
    /\ r_subtotal r = nearest false 6 100
    /\ r_tax r = nearest false 1 100
    /\ round2 (mul (nearest false 8 100) (r_subtotal r)) = zero.
Proof.
  destruct (checkout sticker_request demo_world) as [w' res] eqn:H.
  vm_compute in H. inversion H as [[Hw Hres]]. clear H Hw.
  eexists _, _. split; [reflexivity|].
  repeat split; vm_compute; reflexivity.
Qed.

(** ** No store configured (main.py:169-173, 200-201) *)

Lemma resolve_no_store (item : CartItem) (w : World) :
  db w = None ->
  resolve item w = (w, Return (f49_0, "Gift Item", Some mock_image)).
Proof. intros Hdb. unfold resolve, bind, get_db. now rewrite Hdb. Qed.

(** Without a store the request leaves the world as it was, whatever its
    outcome. *)
Lemma checkout_no_store_frame (payload : CheckoutRequest) (w : World) :
  db w = None -> fst (checkout payload w) = w.
Proof.
  intros Hdb. unfold checkout.
  destruct (items payload) as [|i0 rest]; [reflexivity|].
  pose proof (checkout_loop_no_store (i0 :: rest) [] zero w Hdb) as Hw.
  destruct (checkout_loop (i0 :: rest) [] zero w) as [w1 [[lines sub]|e]] eqn:Hloop;
    cbn [fst] in Hw; subst w1.
  - rewrite (bind_return _ _ _ _ _ Hloop).
    unfold bind at 1, lift at 1. rewrite add_number_shipping.
    unfold bind at 1, get_db at 1. cbn [fst snd]. now rewrite Hdb.
  - now rewrite (bind_raise _ _ _ _ _ Hloop).
Qed.

(** C8, as stated, fails: without a configured store a request can still
    fail, and the fallback is not a single line. The cart of one line with
    quantity 2^1024 raises OverflowError at the product 49.0 * quantity
    (main.py:185), which is answered with status 500; the empty cart is
    answered 400 as with a store; and the cart of two lines is priced with
    two mock lines, one per cart line. *)
Lemma checkout_without_store_counterexample :
  db no_store = None
  /\ items overflow_request <> []
  /\ checkout overflow_request no_store = (no_store, Raise OverflowError)
  /\ post_checkout overflow_request no_store
     = (no_store, HttpError 500 "Internal Server Error")
  /\ checkout empty_request no_store
     = (no_store, Raise (HTTPException 400 "Cart is empty"))
  /\ exists r,
       checkout mixed_request no_store = (no_store, Return r)
       /\ map li_title (r_items r) = ["Gift Item"; "Gift Item"]
       /\ map li_quantity (r_items r) = [1; 2].
Proof.
  split; [reflexivity|]. split; [discriminate|].
  split; [vm_compute; reflexivity|]. split; [vm_compute; reflexivity|].
  split; [vm_compute; reflexivity|].
  eexists. split; [vm_compute; reflexivity|].
  split; vm_compute; reflexivity.
Qed.

(** C8, amended: without a configured store, a non-empty cart whose
    quantities are in the float range is priced: every cart item becomes a
    line of the mock product (price 49.0, title "Gift Item", the fixed
    image), one line per cart item and in cart order, the response is
    returned, and the world is left as it was: no store call is logged, so
    nothing is persisted. *)
Theorem checkout_without_store (payload : CheckoutRequest) (w : World) :
  db w = None ->
  items payload <> [] ->
  Forall (fun item => is_Some (of_int (quantity item))) (items payload) ->
  exists r,
    checkout payload w = (w, Return r)
    /\ Forall2 (fun item li =>
                  li_product_id li = product_id item
                  /\ li_quantity li = quantity item
                  /\ li_price li = nearest false 49 1
                  /\ li_title li = "Gift Item"
                  /\ li_image li = Some mock_image
                  /\ li_line_total li
                     = round2 (mul (nearest false 49 1) (nearest_int (quantity item))))
         (items payload) (r_items r).
Proof.
  intros Hdb Hne Hq.
  assert (Hall : Forall (priceable w) (items payload)).
  { eapply Forall_impl; [exact Hq|]. intros item Hi. split; [|exact Hi].
    rewrite (resolve_no_store item w Hdb). now eexists. }
  destruct (checkout_ok payload w Hne Hall) as (w' & lines & H & Hlines & Hw).
  rewrite (Hw Hdb) in H.
  exists (response_of lines). split; [exact H|].
  cbn [response_of r_items].
  eapply Forall2_impl; [exact Hlines|].
  intros item li (Hr & Hid & Hqty & Hlt).
  rewrite (resolve_no_store item w Hdb) in Hr. cbn [snd] in Hr.
  inversion Hr as [[Hp Ht Hi]].
  repeat split; try assumption; try (symmetry; assumption).
  rewrite Hlt. unfold raw_line_total. now rewrite <- Hp, Hqty.
Qed.

(** The amended C8 on a two-line cart without a store. *)
Lemma checkout_without_store_witness :
  db no_store = None
  /\ items mixed_request <> []
  /\ Forall (fun item => is_Some (of_int (quantity item))) (items mixed_request)
  /\ exists r,
    checkout mixed_request no_store = (no_store, Return r)
    /\ Forall2 (fun item li =>
                  li_product_id li = product_id item
                  /\ li_quantity li = quantity item
                  /\ li_price li = nearest false 49 1
                  /\ li_title li = "Gift Item"
                  /\ li_image li = Some mock_image
                  /\ li_line_total li
                     = round2 (mul (nearest false 49 1) (nearest_int (quantity item))))
         (items mixed_request) (r_items r).
Proof.
  assert (Hne : items mixed_request <> []) by discriminate.
  assert (Hq : Forall (fun item => is_Some (of_int (quantity item)))
                 (items mixed_request)) by priceable_now.
  split; [reflexivity|]. split; [exact Hne|]. split; [exact Hq|].
  exact (checkout_without_store mixed_request no_store eq_refl Hne Hq).
Defined.

(** ** The empty cart (main.py:161-162) *)

(** C5: a request with an empty item list raises the client error
    400 "Cart is empty" and leaves the world as it was: no product is
    resolved, nothing is priced, and no store call is issued. *)
Theorem checkout_empty_cart (payload : CheckoutRequest) (w : World) :
  items payload = [] ->
  checkout payload w = (w, Raise (HTTPException 400 "Cart is empty"))
  /\ client_error (HTTPException 400 "Cart is empty") = true
  /\ post_checkout payload w = (w, HttpError 400 "Cart is empty").
Proof.
  intros Hits. unfold post_checkout, validate_CheckoutRequest, checkout.
  rewrite Hits. repeat split.
Qed.

(** C5 on the sample store. *)
Lemma checkout_empty_cart_witness :
  items empty_request = []
  /\ checkout empty_request demo_world
     = (demo_world, Raise (HTTPException 400 "Cart is empty"))
  /\ client_error (HTTPException 400 "Cart is empty") = true
  /\ post_checkout empty_request demo_world
     = (demo_world, HttpError 400 "Cart is empty").
Proof.
  split; [reflexivity|].
  exact (checkout_empty_cart empty_request demo_world eq_refl).
Defined.

(** ** Frame: the product collection *)

(** C9: whatever the request and its outcome, the "product" collection after
    the request equals the one before it, so no product document and no
    field of one (in particular [stock_qty]) changes; every order document
    that was stored is still stored; and the store calls of the request are
    reads of "product" and inserts of an order document into "order". *)
Theorem checkout_leaves_products (payload : CheckoutRequest) (w : World) :
  products (fst (checkout payload w)) = products w
  /\ (forall d d' oid old,
        db w = Some d -> db (fst (checkout payload w)) = Some d' ->
        collection d "order" !! oid = Some old ->
        collection d' "order" !! oid = Some old)
  /\ exists new,
       calls (fst (checkout payload w)) = (calls w ++ new)%list
       /\ Forall (fun c => product_read c \/ order_insert c) new.
Proof.
  destruct (checkout_cases payload w)
    as [(e & w' & new & H & Hw' & Hread)
       |(r & w1 & w' & new & H & Hw1 & Hread & Hend)];
    rewrite H; cbn [fst].
  - subst w'. split; [reflexivity|]. split.
    + intros d d' oid old Hd Hd'. cbn [db] in Hd'. congruence.
    + exists new. split; [reflexivity|].
      eapply Forall_impl; [exact Hread|]. intros c Hc. now left.
  - destruct Hend as [[Hnone ->]|[Hsome (o & ->)]].
    + subst w1. split; [reflexivity|]. split.
      * intros d d' oid old Hd Hd'. cbn [db] in Hd'. congruence.
      * exists new. split; [reflexivity|].
        eapply Forall_impl; [exact Hread|]. intros c Hc. now left.
    + assert (Hdb1 : db w1 = db w) by now subst w1.
      split; [|split].
      * rewrite create_document_products by discriminate. now subst w1.
      * intros d d' oid old Hd Hd'. rewrite <- Hdb1 in Hd.
        exact (proj1 (create_document_orders _ _ _ _ Hd Hd') oid old).
      * exists (new ++ [InsertOne "order" (OrderDocument o)])%list.
        rewrite create_document_calls by congruence.
        subst w1. cbn [calls]. rewrite app_assoc. split; [reflexivity|].
        apply Forall_app. split.
        -- eapply Forall_impl; [exact Hread|]. intros c Hc. now left.
        -- constructor; [|constructor]. right. reflexivity.
Qed.

(** After a successful order of two Rose Luxe sets the stored document is
    the seeded one: the stock is still 120. *)
Example stock_not_decremented :
  (fun m => m !! 1%N) <$> products (fst (checkout (request_of [cart_item "1" 2]) demo_world))
  = Some (Some (ProductDocument rose_luxe))
  /\ stock_qty rose_luxe = Some 120.
Proof. split; vm_compute; reflexivity. Qed.

(** ** Failures of product resolution (main.py:175-183) *)

(** The [try] body raises the 404 that names the product when the lookup
    finds nothing. *)
Lemma lookup_product_not_found (d : Database) (item : CartItem) (w : World) (oid : N) :
  ObjectId (product_id item) = Return oid ->
  connected d = true ->
  collection d "product" !! oid = None ->
  snd (lookup_product d item w)
  = Raise (HTTPException 404 ("Product " ++ product_id item ++ " not found")).
Proof.
  intros Hid Hc Hl.
  unfold lookup_product, bind, lift, find_one, bind, log, ret, raise.
  rewrite Hid; cbn [snd fst]. rewrite Hc; cbn [snd fst]. now rewrite Hl.
Qed.

(** C10: on a configured store, when some cart item does not resolve,
    whether its identifier is malformed, the store lookup fails, no such
    product exists or the stored document lacks a field, the request raises
    the one client error 400 "Invalid product id"; the store is unchanged.
    (The quantities are taken in the float range, so that no line raises
    OverflowError before the failing item is reached.) *)
Theorem checkout_unresolvable (d : Database) (payload : CheckoutRequest) (w : World) :
  db w = Some d ->
  Forall (fun item => is_Some (of_int (quantity item))) (items payload) ->
  Exists (unresolvable d) (items payload) ->
  exists w',
    checkout payload w = (w', Raise (HTTPException 400 "Invalid product id"))
    /\ db w' = db w
    /\ client_error (HTTPException 400 "Invalid product id") = true.
Proof.
  intros Hdb Hq Hex.
  pose proof (checkout_loop_unresolvable d (items payload) [] zero w Hdb Hq Hex) as Hloop.
  pose proof (checkout_loop_frame (items payload) [] zero w) as (new & Hw1 & _).
  unfold checkout.
  destruct (items payload) as [|i0 rest]; [inversion Hex|].
  destruct (checkout_loop (i0 :: rest) [] zero w) as [w1 res] eqn:H.
  cbn [snd] in Hloop. cbn [fst] in Hw1. subst res.
  rewrite (bind_raise _ _ _ _ _ H).
  exists w1. split; [reflexivity|]. split; [now subst w1|reflexivity].
Qed.

(** C10 on a cart whose second item names no stored product. *)
Lemma checkout_unresolvable_witness :
  db demo_world = Some demo_store
  /\ Forall (fun item => is_Some (of_int (quantity item)))
       (items (request_of [cart_item "1" 1; cart_item "9" 1]))
  /\ Exists (unresolvable demo_store)
       (items (request_of [cart_item "1" 1; cart_item "9" 1]))
  /\ exists w',
    checkout (request_of [cart_item "1" 1; cart_item "9" 1]) demo_world
    = (w', Raise (HTTPException 400 "Invalid product id"))
    /\ db w' = db demo_world
    /\ client_error (HTTPException 400 "Invalid product id") = true.
Proof.
  assert (Hq : Forall (fun item => is_Some (of_int (quantity item)))
                 (items (request_of [cart_item "1" 1; cart_item "9" 1])))
    by priceable_now.
  assert (Hex : Exists (unresolvable demo_store)
                  (items (request_of [cart_item "1" 1; cart_item "9" 1]))).
  { apply Exists_cons_tl, Exists_cons_hd.
    apply (not_found demo_store (cart_item "9" 1) 9%N); vm_compute; reflexivity. }
  split; [reflexivity|]. split; [exact Hq|]. split; [exact Hex|].
  exact (checkout_unresolvable demo_store _ demo_world eq_refl Hq Hex).
Defined.

(** A malformed identifier and an identifier of no product end the same
    way. *)
Example malformed_and_missing_alike :
  snd (checkout (request_of [ {| product_id := "not-an-id"; quantity := 1 |} ]) demo_world)
  = Raise (HTTPException 400 "Invalid product id")
  /\ snd (checkout missing_product_request demo_world)
     = Raise (HTTPException 400 "Invalid product id").
Proof. split; vm_compute; reflexivity. Qed.

(** C4: a request that names the product "000000000000000000000009", which
    the store does not hold. The lookup inside the [try] block raises the
    404 "Product 000000000000000000000009 not found", the handler replaces
    it, and the request ends with 400 "Invalid product id", which does not
    name the product. The store is read once and nothing is inserted. *)
Theorem missing_product_error_is_replaced :
  snd (lookup_product demo_store (cart_item "9" 1) demo_world)
  = Raise (HTTPException 404 "Product 000000000000000000000009 not found")
  /\ checkout missing_product_request demo_world
     = ({| db := Some demo_store; calls := [FindOne "product" 9%N] |},
        Raise (HTTPException 400 "Invalid product id"))
  /\ post_checkout missing_product_request demo_world
     = ({| db := Some demo_store; calls := [FindOne "product" 9%N] |},
        HttpError 400 "Invalid product id").
Proof. repeat split; vm_compute; reflexivity. Qed.

(** ** Quantities below one (main.py:143-145, schemas.py:32-37) *)

(** The request model declares no bound on the quantity, so validation
    accepts every cart. *)
Lemma validate_accepts_every_cart (payload : CheckoutRequest) :
  validate_CheckoutRequest payload = None.
Proof.
  unfold validate_CheckoutRequest. generalize 0%nat.
  induction (items payload) as [|item rest IH]; intros i; [reflexivity|].
  cbn. apply IH.
Qed.

(** C3: requests whose one cart item has quantity 0, and quantity -1. Both
    pass validation and are priced: the first is answered with total 6.99,
    the second with total -89.13, and in both cases an order document is
    inserted that violates the bounds declared by [schemas.Order] and
    [schemas.OrderItem] (quantity at least 1, amounts at least 0). *)
Theorem quantity_below_one_is_priced :
  (exists w' r o,
      post_checkout zero_quantity_request demo_world = (w', Ok200 r)
      /\ map li_quantity (r_items r) = [0]
      /\ r_subtotal r = zero
      /\ r_total r = nearest false 699 100
      /\ calls w' = [FindOne "product" 1%N; InsertOne "order" (OrderDocument o)]
      /\ Order_valid o = false)
  /\ (exists w' r o,
      post_checkout negative_quantity_request demo_world = (w', Ok200 r)
      /\ map li_quantity (r_items r) = [-1]
      /\ r_subtotal r = SFopp (nearest false 89 1)
      /\ r_total r = SFopp (nearest false 8913 100)
      /\ calls w' = [FindOne "product" 1%N; InsertOne "order" (OrderDocument o)]
      /\ Order_valid o = false).
Proof.
  split.
  - destruct (post_checkout zero_quantity_request demo_world) as [w' res] eqn:H.
    vm_compute in H. inversion H as [[Hw Hres]]. clear H.
    eexists _, _, _. split; [reflexivity|].
    repeat split; vm_compute; reflexivity.
  - destruct (post_checkout negative_quantity_request demo_world) as [w' res] eqn:H.
    vm_compute in H. inversion H as [[Hw Hres]]. clear H.
    eexists _, _, _. split; [reflexivity|].
    repeat split; vm_compute; reflexivity.
Qed.

(** * Further properties of the checkout endpoint *)

(** On return the loop has logged the lookups of all its items, in order. *)
Lemma checkout_loop_world (its : list CartItem) :
  forall out sub w w' acc,
    checkout_loop its out sub w = (w', Return acc) ->
    w' = {| db := db w;
            calls := (calls w ++ flat_map (resolve_calls (db w)) its)%list |}.
Proof.
  induction its as [|item rest IH]; intros out sub w w' acc H.
  - simpl in H. inversion H; subst. simpl. rewrite app_nil_r. now destruct w'.
  - simpl in H. unfold bind at 1 in H.
    pose proof (resolve_world item w) as Hw.
    destruct (resolve item w) as [w1 [[[p t] i]|e]]; [|discriminate].
    cbn [fst] in Hw. unfold bind at 1, lift at 1 in H.
    destruct (mul_int p (quantity item)) as [lt|e]; [|discriminate].
    apply IH in H. subst w1. cbn [db calls] in H.
    rewrite H. cbn [flat_map]. now rewrite app_assoc.
Qed.

(** The loop over a concatenation runs the first part, then the second. *)
Lemma checkout_loop_app (a b : list CartItem) :
  forall out sub w,
    checkout_loop (a ++ b) out sub w
    = match checkout_loop a out sub w with
      | (w1, Return (out1, sub1)) => checkout_loop b out1 sub1 w1
      | (w1, Raise e) => (w1, Raise e)
      end.
Proof.
  induction a as [|item rest IH]; intros out sub w; [reflexivity|].
  cbn [app checkout_loop]. unfold bind, lift.
  destruct (resolve item w) as [w1 [[[p t] i]|e]]; [|reflexivity].
  destruct (mul_int p (quantity item)) as [lt|e]; [|reflexivity].
  apply IH.
Qed.

(** The exceptions of the loop. *)
Lemma checkout_loop_raises (its : list CartItem) :
  forall out sub w w' e,
    checkout_loop its out sub w = (w', Raise e) ->
    (db w <> None /\ e = HTTPException 400 "Invalid product id")
    \/ (e = OverflowError
        /\ Exists (fun item => of_int (quantity item) = None) its).
Proof.
  induction its as [|item rest IH]; intros out sub w w' e H; [discriminate|].
  simpl in H. unfold bind at 1 in H.
  pose proof (resolve_world item w) as Hw.
  destruct (resolve item w) as [w1 [[[p t] i]|e1]] eqn:Hres.
  - cbn [fst] in Hw. unfold bind at 1, lift at 1, mul_int in H.
    destruct (of_int (quantity item)) as [y|] eqn:Hq.
    + apply IH in H. destruct H as [[Hdb He]|[He Hex]].
      * left. split; [|exact He]. now subst w1.
      * right. split; [exact He|]. now apply Exists_cons_tl.
    + inversion H; subst. right. split; [reflexivity|]. now apply Exists_cons_hd.
  - inversion H; subst. left. eapply resolve_raises. exact Hres.
Qed.

(** A successful request on a configured store: the lookups, then the
    insert of the order document built from the emitted lines. *)
Lemma checkout_store_ok (payload : CheckoutRequest) (w : World) :
  db w <> None ->
  items payload <> [] ->
  Forall (priceable w) (items payload) ->
  exists lines,
    Forall2 (line_of w) (items payload) lines
    /\ checkout payload w
       = (fst (create_document "order" (OrderDocument (order_doc_of payload lines))
                 {| db := db w;
                    calls := (calls w
                              ++ flat_map (resolve_calls (db w)) (items payload))%list |}),
          Return (response_of lines)).
Proof.
  intros Hdb Hne Hall. unfold checkout.
  destruct (items payload) as [|i0 rest] eqn:Hits; [congruence|].
  destruct (checkout_loop_ok (i0 :: rest) [] zero w Hall) as (w1 & lines & Hloop & Hlines).
  pose proof (checkout_loop_world _ _ _ _ _ _ Hloop) as Hw1.
  exists lines. split; [exact Hlines|].
  rewrite (bind_return _ _ _ _ _ Hloop). cbn [app].
  fold (raw_subtotal lines).
  unfold bind at 1, lift at 1. rewrite add_number_shipping.
  unfold bind at 1, get_db at 1. cbn [fst snd].
  assert (Hdb1 : db w1 = db w) by now subst w1.
  destruct (db w1) as [d|] eqn:Hd; [|congruence].
  unfold bind at 1. unfold bind at 1.
  fold (shipping_of (raw_subtotal lines)).
  fold (order_doc_of payload lines). fold (response_of lines).
  rewrite <- Hw1.
  destruct (create_document _ _ w1) as [w2 [oid|e]] eqn:Hcd; [reflexivity|].
  exfalso.
  assert (Hc : connected d = true).
  { inversion Hall as [|? ? Hp _].
    apply (priceable_connected d i0 w); [congruence|exact Hp]. }
  match type of Hcd with create_document ?n ?doc _ = _ =>
    destruct (create_document_returns n doc w1 d Hd Hc) as [oid Hoid] end.
  rewrite Hcd in Hoid. discriminate.
Qed.

(** A request whose loop raises, raises the same and goes no further. *)
Lemma checkout_of_loop_raise (payload : CheckoutRequest) (w w1 : World) (e : Exception) :
  checkout_loop (items payload) [] zero w = (w1, Raise e) ->
  checkout payload w = (w1, Raise e).
Proof.
  intros Hloop. unfold checkout.
  destruct (items payload) as [|i0 rest]; [discriminate|].
  now rewrite (bind_raise _ _ _ _ _ Hloop).
Qed.

(** A cart with a line that cannot be priced makes the loop raise, at that
    line or before it. *)
Lemma checkout_loop_unpriceable (its : list CartItem) :
  forall out sub w,
    Exists (fun item => ~ priceable w item) its ->
    exists w' e, checkout_loop its out sub w = (w', Raise e).
Proof.
  induction its as [|item rest IH]; intros out sub w Hex; [inversion Hex|].
  cbn [checkout_loop]. unfold bind at 1.
  pose proof (resolve_world item w) as Hw.
  destruct (resolve item w) as [w1 [[[p t] i]|e]] eqn:Hres; cbn [fst] in Hw.
  - assert (Hdb1 : db w = db w1) by now subst w1.
    unfold bind at 1, lift at 1, mul_int.
    destruct (of_int (quantity item)) as [y|] eqn:Hq.
    + apply IH. inversion Hex as [? ? Hbad|? ? Htl].
      * exfalso. apply Hbad. split; [|now exists y].
        exists (p, t, i). now rewrite Hres.
      * eapply Exists_impl; [exact Htl|].
        intros a Ha Hp. apply Ha. now apply (priceable_db w1 w); [symmetry|].
    + now eexists _, _.
  - now eexists _, _.
Qed.

(** X1: a request with a cart line that cannot be priced (its product does
    not resolve, or its quantity is too large for a float) raises before
    the persistence step is reached: the handle and every collection are
    as before, and the store calls issued are find_one reads of "product"
    only, so no insert is attempted. *)
Theorem unpriceable_cart_persists_nothing (payload : CheckoutRequest) (w : World) :
  Exists (fun item => ~ priceable w item) (items payload) ->
  exists w' e,
    checkout payload w = (w', Raise e)
    /\ db w' = db w
    /\ exists new, calls w' = (calls w ++ new)%list /\ Forall product_read new.
Proof.
  intros Hex.
  destruct (checkout_loop_unpriceable (items payload) [] zero w Hex)
    as (w' & e & Hloop).
  pose proof (checkout_loop_frame (items payload) [] zero w) as (new & Hw' & Hread).
  rewrite Hloop in Hw'. cbn [fst] in Hw'.
  exists w', e. split; [exact (checkout_of_loop_raise _ _ _ _ Hloop)|].
  subst w'. split; [reflexivity|]. now exists new.
Qed.

(** X1 on a cart whose second line names no stored product: the two reads
    are all that the store has seen. *)
Lemma unpriceable_cart_persists_nothing_witness :
  Exists (fun item => ~ priceable demo_world item)
    (items (request_of [cart_item "1" 1; cart_item "9" 1]))
  /\ (exists w' e,
        checkout (request_of [cart_item "1" 1; cart_item "9" 1]) demo_world
        = (w', Raise e)
        /\ db w' = db demo_world
        /\ exists new, calls w' = (calls demo_world ++ new)%list
                       /\ Forall product_read new)
  /\ checkout (request_of [cart_item "1" 1; cart_item "9" 1]) demo_world
     = ({| db := Some demo_store;
           calls := [FindOne "product" 1%N; FindOne "product" 9%N] |},
        Raise (HTTPException 400 "Invalid product id")).
Proof.
  assert (Hex : Exists (fun item => ~ priceable demo_world item)
                  (items (request_of [cart_item "1" 1; cart_item "9" 1]))).
  { apply Exists_cons_tl, Exists_cons_hd.
    intros [[r Hr] _]. vm_compute in Hr. discriminate. }
  split; [exact Hex|]. split.
  - exact (unpriceable_cart_persists_nothing _ demo_world Hex).
  - vm_compute. reflexivity.
Defined.

(** X2: a request that returns on a configured store has issued, as its
    last store call, exactly one insert into "order"; the inserted document
    carries the lines and the four amounts of the response, the customer
    fields of the payload and the status "processing"; all the calls before
    it are reads of "product". *)
Theorem checkout_persists_response
    (payload : CheckoutRequest) (w w' : World) (r : Response) :
  db w <> None ->
  checkout payload w = (w', Return r) ->
  exists reads o,
    calls w' = (calls w ++ reads ++ [InsertOne "order" (OrderDocument o)])%list
    /\ Forall product_read reads
    /\ o_items o = r_items r
    /\ (o_subtotal o, o_shipping o, o_tax o, o_total o) = amounts r
    /\ o_customer o
       = {| c_name := customer_name payload;
            c_email := customer_email payload;
            c_address_line1 := address_line1 payload;
            c_city := address_city payload;
            c_state := address_state payload;
            c_postal_code := address_postal_code payload;
            c_country := address_country payload |}
    /\ o_status o = "processing"
    /\ r_status r = "processing".
Proof.
  intros Hdb H.
  assert (Hret : exists w2 r2, checkout payload w = (w2, Return r2)) by eauto.
  apply checkout_returns_iff in Hret. destruct Hret as [Hne Hall].
  destruct (checkout_store_ok payload w Hdb Hne Hall) as (lines & _ & Hok).
  rewrite Hok in H. inversion H as [[Hw Hr]]. clear H.
  exists (flat_map (resolve_calls (db w)) (items payload)), (order_doc_of payload lines).
  split.
  { rewrite create_document_calls by exact Hdb. cbn [calls].
    now rewrite app_assoc. }
  split.
  { clear. induction (items payload) as [|item rest IH]; [constructor|].
    cbn [flat_map]. apply Forall_app. split; [apply resolve_calls_read|exact IH]. }
  repeat split.
Qed.

(** X2 on a one-line cart. *)
Lemma checkout_persists_response_witness :
  db demo_world <> None
  /\ exists w' r,
       checkout gift_card_request demo_world = (w', Return r)
       /\ exists reads o,
            calls w' = (calls demo_world ++ reads
                        ++ [InsertOne "order" (OrderDocument o)])%list
            /\ Forall product_read reads
            /\ o_items o = r_items r
            /\ (o_subtotal o, o_shipping o, o_tax o, o_total o) = amounts r
            /\ o_customer o
               = {| c_name := customer_name gift_card_request;
                    c_email := customer_email gift_card_request;
                    c_address_line1 := address_line1 gift_card_request;
                    c_city := address_city gift_card_request;
                    c_state := address_state gift_card_request;
                    c_postal_code := address_postal_code gift_card_request;
                    c_country := address_country gift_card_request |}
            /\ o_status o = "processing"
            /\ r_status r = "processing".
Proof.
  assert (Hdb : db demo_world <> None) by discriminate.
  split; [exact Hdb|].
  destruct (checkout gift_card_request demo_world) as [w' [r|e]] eqn:H.
  - exists w', r. split; [reflexivity|].
    exact (checkout_persists_response gift_card_request demo_world w' r Hdb H).
  - exfalso. vm_compute in H. discriminate.
Defined.

(** A priceable item on a configured store has a well-formed identifier,
    and resolving it issues exactly the lookup of that identifier. *)
Lemma priceable_lookup (w : World) (item : CartItem) :
  db w <> None -> priceable w item ->
  exists oid,
    ObjectId (product_id item) = Return oid
    /\ resolve_calls (db w) item = [FindOne "product" oid].
Proof.
  intros Hdb [[r Hr] _]. unfold resolve_calls.
  unfold resolve, bind, get_db, try_except, lookup_product, bind, lift, raise in Hr.
  destruct (db w) as [d|]; [|congruence]. cbn [snd fst] in Hr.
  destruct (ObjectId (product_id item)) as [oid|e]; [|discriminate].
  now exists oid.
Qed.

(** X3: a request that returns on a configured store has looked up every
    cart line once, in cart order and without remembering earlier lines,
    under the identifier parsed from the line's [product_id], and has then
    inserted one order document; it has issued no other store call. *)
Theorem checkout_one_lookup_per_line
    (payload : CheckoutRequest) (w w' : World) (r : Response) :
  db w <> None ->
  checkout payload w = (w', Return r) ->
  exists oids o,
    Forall2 (fun item oid => ObjectId (product_id item) = Return oid)
      (items payload) oids
    /\ calls w' = (calls w ++ map (FindOne "product") oids
                   ++ [InsertOne "order" (OrderDocument o)])%list.
Proof.
  intros Hdb H.
  assert (Hret : exists w2 r2, checkout payload w = (w2, Return r2)) by eauto.
  apply checkout_returns_iff in Hret. destruct Hret as [Hne Hall].
  destruct (checkout_store_ok payload w Hdb Hne Hall) as (lines & _ & Hok).
  rewrite Hok in H. inversion H as [[Hw Hr]]. clear H Hok.
  assert (Hoids : exists oids,
             Forall2 (fun item oid => ObjectId (product_id item) = Return oid)
               (items payload) oids
             /\ flat_map (resolve_calls (db w)) (items payload)
                = map (FindOne "product") oids).
  { clear - Hdb Hall. induction Hall as [|item rest Hp _ IH].
    - exists []. split; constructor.
    - destruct IH as (oids & Hf & Hm).
      destruct (priceable_lookup w item Hdb Hp) as (oid & Hid & Hc).
      exists (oid :: oids). split; [now constructor|].
      cbn [flat_map map]. now rewrite Hc, Hm. }
  destruct Hoids as (oids & Hf & Hm).
  exists oids, (order_doc_of payload lines). split; [exact Hf|].
  rewrite create_document_calls by exact Hdb. cbn [calls].
  now rewrite Hm, app_assoc.
Qed.

(** X3 on a cart that names the same product on two lines. *)
Lemma checkout_one_lookup_per_line_witness :
  db demo_world <> None
  /\ exists w' r,
       checkout two_ribbons_request demo_world = (w', Return r)
       /\ exists oids o,
            Forall2 (fun item oid => ObjectId (product_id item) = Return oid)
              (items two_ribbons_request) oids
            /\ calls w' = (calls demo_world ++ map (FindOne "product") oids
                           ++ [InsertOne "order" (OrderDocument o)])%list.
Proof.
  assert (Hdb : db demo_world <> None) by discriminate.
  split; [exact Hdb|].
  destruct (checkout two_ribbons_request demo_world) as [w' [r|e]] eqn:H.
  - exists w', r. split; [reflexivity|].
    exact (checkout_one_lookup_per_line two_ribbons_request demo_world w' r Hdb H).
  - exfalso. vm_compute in H. discriminate.
Defined.

(** An item that is not priceable makes the loop raise at it, whatever
    follows. *)
Lemma checkout_loop_stops (bad : CartItem) (post : list CartItem) :
  forall out sub w,
    ~ priceable w bad ->
    checkout_loop (bad :: post) out sub w = checkout_loop [bad] out sub w
    /\ exists e, snd (checkout_loop [bad] out sub w) = Raise e.
Proof.
  intros out sub w Hbad. cbn [checkout_loop]. unfold bind, lift, mul_int.
  destruct (resolve bad w) as [w1 [[[p t] i]|e]] eqn:Hres.
  - destruct (of_int (quantity bad)) as [y|] eqn:Hq.
    + exfalso. apply Hbad. split; [|now exists y].
      exists (p, t, i). now rewrite Hres.
    + split; [reflexivity|]. now exists OverflowError.
  - split; [reflexivity|]. now exists e.
Qed.

(** X4: the loop stops at the first cart line that cannot be priced: the
    request raises there, and the lines after it have no effect at all
    (they are neither looked up nor checked), so that the outcome and the
    final state are those of the cart cut after the failing line. *)
Theorem checkout_stops_at_first_failure
    (p1 p2 : CheckoutRequest) (pre post : list CartItem) (bad : CartItem) (w : World) :
  items p1 = (pre ++ bad :: post)%list ->
  items p2 = (pre ++ [bad])%list ->
  Forall (priceable w) pre ->
  ~ priceable w bad ->
  checkout p1 w = checkout p2 w
  /\ exists e, snd (checkout p1 w) = Raise e.
Proof.
  intros H1 H2 Hpre Hbad.
  destruct (checkout_loop_ok pre [] zero w Hpre) as (w1 & lines & Hloop & _).
  pose proof (checkout_loop_world _ _ _ _ _ _ Hloop) as Hw1.
  assert (Hbad1 : ~ priceable w1 bad).
  { intros Hp. apply Hbad. eapply priceable_db; [|exact Hp]. now subst w1. }
  destruct (checkout_loop_stops bad post ([] ++ lines)%list
              (fold_left add (map raw_line_total lines) zero) w1 Hbad1)
    as [Hsame [e He]].
  destruct (checkout_loop [bad] ([] ++ lines)%list
              (fold_left add (map raw_line_total lines) zero) w1)
    as [w2 res] eqn:Hlast.
  cbn [snd] in He. subst res.
  assert (L1 : checkout_loop (items p1) [] zero w = (w2, Raise e)).
  { rewrite H1, checkout_loop_app, Hloop. exact Hsame. }
  assert (L2 : checkout_loop (items p2) [] zero w = (w2, Raise e)).
  { rewrite H2, checkout_loop_app, Hloop. exact Hlast. }
  rewrite (checkout_of_loop_raise _ _ _ _ L1), (checkout_of_loop_raise _ _ _ _ L2).
  split; [reflexivity|]. now exists e.
Qed.

(** X4 on a cart whose second of three lines names no stored product; the
    third line, malformed, is never reached. *)
Lemma checkout_stops_at_first_failure_witness :
  items (request_of [cart_item "1" 1; cart_item "9" 1; cart_item "zz" 1])
  = ([cart_item "1" 1] ++ cart_item "9" 1 :: [cart_item "zz" 1])%list
  /\ items (request_of [cart_item "1" 1; cart_item "9" 1])
     = ([cart_item "1" 1] ++ [cart_item "9" 1])%list
  /\ Forall (priceable demo_world) [cart_item "1" 1]
  /\ ~ priceable demo_world (cart_item "9" 1)
  /\ checkout (request_of [cart_item "1" 1; cart_item "9" 1; cart_item "zz" 1]) demo_world
     = checkout (request_of [cart_item "1" 1; cart_item "9" 1]) demo_world
  /\ exists e,
       snd (checkout (request_of [cart_item "1" 1; cart_item "9" 1; cart_item "zz" 1])
              demo_world) = Raise e.
Proof.
  assert (Hpre : Forall (priceable demo_world) [cart_item "1" 1]) by priceable_now.
  assert (Hbad : ~ priceable demo_world (cart_item "9" 1)).
  { intros [[r Hr] _]. vm_compute in Hr. discriminate. }
  split; [reflexivity|]. split; [reflexivity|]. split; [exact Hpre|]. split; [exact Hbad|].
  exact (checkout_stops_at_first_failure
           (request_of [cart_item "1" 1; cart_item "9" 1; cart_item "zz" 1])
           (request_of [cart_item "1" 1; cart_item "9" 1])
           [cart_item "1" 1] [cart_item "zz" 1] (cart_item "9" 1) demo_world
           eq_refl eq_refl Hpre Hbad).
Defined.

(** X5: the exception of a request with a cart line that cannot be priced
    is [HTTPException 400 "Invalid product id"], which takes a configured
    store, or [OverflowError], which takes a quantity too large for a
    float. Whatever made the lookup fail, the exception that [checkout]
    raises is one of these two: the 404 that names a missing product
    (main.py:178) is never the one. *)
Theorem unpriceable_cart_error (payload : CheckoutRequest) (w : World) :
  Exists (fun item => ~ priceable w item) (items payload) ->
  exists w' e,
    checkout payload w = (w', Raise e)
    /\ ((db w <> None /\ e = HTTPException 400 "Invalid product id")
        \/ (e = OverflowError
            /\ Exists (fun item => of_int (quantity item) = None) (items payload)))
    /\ forall detail, e <> HTTPException 404 detail.
Proof.
  intros Hex.
  destruct (checkout_loop_unpriceable (items payload) [] zero w Hex)
    as (w' & e & Hloop).
  exists w', e. split; [exact (checkout_of_loop_raise _ _ _ _ Hloop)|].
  apply checkout_loop_raises in Hloop.
  split; [exact Hloop|].
  intros detail. destruct Hloop as [[_ ->]|[-> _]]; discriminate.
Qed.

(** X5 on a cart that names a missing product, answered 400, and on a cart
    of 2^1024 Rose Luxe sets, which raises [OverflowError]. *)
Lemma unpriceable_cart_error_witness :
  (Exists (fun item => ~ priceable demo_world item) (items missing_product_request)
   /\ exists w' e,
        checkout missing_product_request demo_world = (w', Raise e)
        /\ ((db demo_world <> None /\ e = HTTPException 400 "Invalid product id")
            \/ (e = OverflowError
                /\ Exists (fun item => of_int (quantity item) = None)
                     (items missing_product_request)))
        /\ forall detail, e <> HTTPException 404 detail)
  /\ snd (checkout missing_product_request demo_world)
     = Raise (HTTPException 400 "Invalid product id")
  /\ snd (checkout overflow_request demo_world) = Raise OverflowError.
Proof.
  assert (Hex : Exists (fun item => ~ priceable demo_world item)
                  (items missing_product_request)).
  { apply Exists_cons_hd. intros [[r Hr] _]. vm_compute in Hr. discriminate. }
  split; [split; [exact Hex|]|split].
  - exact (unpriceable_cart_error missing_product_request demo_world Hex).
  - vm_compute. reflexivity.
  - vm_compute. reflexivity.
Defined.

(** ** What the response depends on *)

Lemma same_catalog_refl (d : option Database) : same_catalog d d.
Proof. destruct d; cbn; auto. Qed.

Lemma resolve_same_catalog (item : CartItem) (w1 w2 : World) :
  same_catalog (db w1) (db w2) ->
  snd (resolve item w1) = snd (resolve item w2).
Proof.
  intros Hsame.
  unfold resolve, bind, get_db, try_except, lookup_product, bind, lift,
    find_one, bind, log, ret, raise.
  destruct (db w1) as [a|], (db w2) as [b|]; cbn in Hsame; try contradiction;
    [|reflexivity].
  destruct Hsame as [Hc Hs]. cbn [snd fst].
  destruct (ObjectId (product_id item)) as [oid|e]; cbn [snd fst]; [|reflexivity].
  rewrite <- Hc. destruct (connected a); cbn [snd fst]; [|reflexivity].
  specialize (Hs oid).
  destruct (collection a "product" !! oid) as [da|],
           (collection b "product" !! oid) as [db0|];
    cbn in Hs; try discriminate; [|reflexivity].
  unfold snapshot in Hs. inversion Hs as [[Hp Ht Hi]].
  rewrite Hp, Ht, Hi.
  destruct (getitem_price db0) as [v|]; cbn [snd fst]; [|reflexivity].
  destruct (py_float v); cbn [snd fst]; [|reflexivity].
  destruct (getitem_title db0); reflexivity.
Qed.

Lemma checkout_loop_same_catalog (its : list CartItem) :
  forall out sub w1 w2,
    same_catalog (db w1) (db w2) ->
    snd (checkout_loop its out sub w1) = snd (checkout_loop its out sub w2).
Proof.
  induction its as [|item rest IH]; intros out sub w1 w2 Hsame; [reflexivity|].
  cbn [checkout_loop]. unfold bind at 1 3.
  pose proof (resolve_same_catalog item w1 w2 Hsame) as Hr.
  pose proof (resolve_world item w1) as Hw1.
  pose proof (resolve_world item w2) as Hw2.
  destruct (resolve item w1) as [w1' r1], (resolve item w2) as [w2' r2].
  cbn [snd fst] in *. subst r2 w1' w2'.
  destruct r1 as [[[p t] i]|e]; [|reflexivity].
  unfold bind at 1 2, lift at 1 2.
  destruct (mul_int p (quantity item)) as [lt|e]; [|reflexivity].
  apply IH. exact Hsame.
Qed.

(** Once the loop has ended, the outcome of the request is settled: the
    store has no further say in it. *)
Lemma checkout_outcome (payload : CheckoutRequest) (w : World) :
  snd (checkout payload w)
  = match items payload with
    | [] => Raise (HTTPException 400 "Cart is empty")
    | _ => outcome_of_loop (snd (checkout_loop (items payload) [] zero w))
    end.
Proof.
  unfold checkout.
  destruct (items payload) as [|i0 rest]; [reflexivity|].
  pose proof (checkout_loop_frame (i0 :: rest) [] zero w) as (n1 & Hw1 & _).
  destruct (checkout_loop (i0 :: rest) [] zero w) as [w1 [[lines sub]|e]] eqn:H1;
    cbn [snd fst] in *.
  - rewrite (bind_return _ _ _ _ _ H1).
    unfold bind at 1, lift at 1. rewrite add_number_shipping.
    unfold bind at 1, get_db at 1. cbn [fst snd].
    destruct (db w1) as [d|] eqn:Hd; [|reflexivity].
    assert (Hc : connected d = true).
    { pose proof (checkout_loop_returns _ _ _ _ _ _ H1) as Hall.
      inversion Hall as [|? ? Hp _].
      apply (priceable_connected d i0 w); [|exact Hp].
      rewrite <- Hd. now rewrite Hw1. }
    unfold bind at 1. unfold bind at 1.
    match goal with |- context [create_document ?n ?doc w1] =>
      destruct (create_document_returns n doc w1 d Hd Hc) as [oid Hoid];
      destruct (create_document n doc w1) as [w2 r] end.
    cbn [snd] in Hoid. subst r. reflexivity.
  - now rewrite (bind_raise _ _ _ _ _ H1).
Qed.

(** X9: the outcome of a request (the response, or the exception) is the
    same on any two states of the store that are equally reachable and give
    every product identifier the same price, title and first image url. No
    other field of a product document is consulted: not [in_stock], not
    [stock_qty], nor the orders already stored. *)
Theorem checkout_same_catalog (payload : CheckoutRequest) (w1 w2 : World) :
  same_catalog (db w1) (db w2) ->
  snd (checkout payload w1) = snd (checkout payload w2).
Proof.
  intros Hsame. rewrite !checkout_outcome.
  destruct (items payload) as [|i0 rest]; [reflexivity|].
  f_equal. now apply checkout_loop_same_catalog.
Qed.

Lemma sold_out_same_catalog : same_catalog (Some sold_out_store) (Some demo_store).
Proof.
  split; [reflexivity|]. intros oid.
  unfold collection, sold_out_store, demo_store. cbn [collections].
  rewrite !lookup_singleton_eq. cbn [default]. unfold id.
  destruct (decide (oid = 1%N)) as [->|Hne].
  - now rewrite !lookup_insert_eq.
  - now rewrite !(lookup_insert_ne _ 1%N oid) by congruence.
Qed.

(** X9 on the sample store and the same store with the Rose Luxe set sold
    out: two sets are ordered all the same. *)
Lemma checkout_same_catalog_witness :
  same_catalog (db {| db := Some sold_out_store; calls := [] |}) (db demo_world)
  /\ snd (checkout (request_of [cart_item "1" 2])
            {| db := Some sold_out_store; calls := [] |})
     = snd (checkout (request_of [cart_item "1" 2]) demo_world).
Proof.
  split; [exact sold_out_same_catalog|].
  exact (checkout_same_catalog (request_of [cart_item "1" 2])
           {| db := Some sold_out_store; calls := [] |} demo_world
           sold_out_same_catalog).
Defined.

Lemma create_document_same_catalog (doc : Document) (w : World) :
  same_catalog (db (fst (create_document "order" doc w))) (db w).
Proof.
  unfold create_document, bind, get_db, log, raise.
  destruct (db w) as [d|] eqn:Hdb; cbn [fst db]; [|now rewrite Hdb].
  destruct (connected d) eqn:Hc; cbn [fst db];
    [|rewrite Hdb; apply same_catalog_refl].
  split; [cbn [connected]; now rewrite Hc|]. intros oid.
  rewrite collection_insert_ne by discriminate. destruct d. cbn in Hc. now subst.
Qed.

Lemma checkout_keeps_catalog (payload : CheckoutRequest) (w : World) :
  same_catalog (db (fst (checkout payload w))) (db w).
Proof.
  destruct (checkout_cases payload w)
    as [(e & w' & new & H & Hw' & _)|(r & w1 & w' & new & H & Hw1 & _ & Hend)];
    rewrite H; cbn [fst].
  - subst w'. apply same_catalog_refl.
  - destruct Hend as [[_ ->]|[_ (o & ->)]].
    + subst w1. apply same_catalog_refl.
    + assert (Hdb1 : db w1 = db w) by now subst w1.
      rewrite <- Hdb1. apply create_document_same_catalog.
Qed.

(** X8: a request can be repeated: sent again right after itself, it has the
    same outcome (the same response with the same prices and amounts, or the
    same exception), since placing an order changes nothing that a later
    order reads. *)
Theorem checkout_repeatable (payload : CheckoutRequest) (w : World) :
  snd (checkout payload (fst (checkout payload w))) = snd (checkout payload w).
Proof.
  rewrite !checkout_outcome.
  destruct (items payload) as [|i0 rest]; [reflexivity|].
  f_equal. apply checkout_loop_same_catalog, checkout_keeps_catalog.
Qed.

(** ** Snapshots *)

Lemma resolve_stored (d : Database) (w : World) (item : CartItem) (p : Product) :
  db w = Some d -> connected d = true -> stored d item p -> sellable p ->
  exists li_p li_t,
    snd (resolve item w) = Return (li_p, li_t, first_image_url (ProductDocument p))
    /\ title p = Some li_t
    /\ exists v, price p = Some v /\ py_float v = Return li_p.
Proof.
  intros Hdb Hc (oid & Hid & Hl) ([t Ht] & v & x & Hp & Hf).
  exists x, t. split; [|split; [exact Ht|now exists v]].
  unfold resolve, bind, get_db, try_except, lookup_product, bind, lift,
    find_one, bind, log, ret, raise.
  rewrite Hdb; cbn [snd fst]. rewrite Hid; cbn [snd fst]. rewrite Hc; cbn [snd fst].
  rewrite Hl; cbn [snd fst]. unfold getitem_price, getitem_title.
  rewrite Hp; cbn [snd fst]. rewrite Hf; cbn [snd fst]. now rewrite Ht.
Qed.

(** X7: on a reachable store, a non-empty cart whose lines name stored
    product documents that have a title and a price, with quantities in the
    float range, is answered with one line per cart line that copies the
    stored title, the stored price converted to a float, and the url of the
    first stored image, or no image when the document has none. *)
Theorem checkout_snapshot (d : Database) (payload : CheckoutRequest) (w : World)
    (prods : list Product) :
  db w = Some d -> connected d = true ->
  items payload <> [] ->
  Forall2 (stored d) (items payload) prods ->
  Forall sellable prods ->
  Forall (fun item => is_Some (of_int (quantity item))) (items payload) ->
  exists w' r,
    checkout payload w = (w', Return r)
    /\ Forall2 copied_from prods (r_items r).
Proof.
  intros Hdb Hc Hne Hst Hsell Hq.
  assert (Hall : Forall (priceable w) (items payload)).
  { clear Hne. induction Hst as [|item p its ps Hs _ IH]; [constructor|].
    inversion Hsell; subst. inversion Hq; subst.
    constructor; [|now apply IH].
    destruct (resolve_stored d w item p Hdb Hc Hs) as (x & t & Hr & _); [assumption|].
    split; [eexists; exact Hr|assumption]. }
  destruct (checkout_ok payload w Hne Hall) as (w' & lines & H & Hlines & _).
  exists w', (response_of lines). split; [exact H|].
  cbn [response_of r_items]. clear H Hne Hall Hq.
  revert lines Hlines.
  induction Hst as [|item p its ps Hs _ IH]; intros lines Hlines;
    inversion Hlines as [|? li ? lis Hl Hrest]; subst; [constructor|].
  inversion Hsell; subst.
  constructor; [|now apply IH].
  destruct (resolve_stored d w item p Hdb Hc Hs) as (x & t & Hr & Ht & v & Hp & Hf);
    [assumption|].
  destruct Hl as (Hres & _). rewrite Hr in Hres. inversion Hres as [[Hx Htt Hi]].
  unfold copied_from. rewrite <- Htt, <- Hx, <- Hi.
  split; [exact Ht|]. split; [now exists v|reflexivity].
Qed.

(** X7 on the sample store: a Gift Card and two Rose Luxe sets. *)
Lemma checkout_snapshot_witness :
  db demo_world = Some demo_store /\ connected demo_store = true
  /\ items mixed_request <> []
  /\ Forall2 (stored demo_store) (items mixed_request) [gift_card; rose_luxe]
  /\ Forall sellable [gift_card; rose_luxe]
  /\ Forall (fun item => is_Some (of_int (quantity item))) (items mixed_request)
  /\ exists w' r,
       checkout mixed_request demo_world = (w', Return r)
       /\ Forall2 copied_from [gift_card; rose_luxe] (r_items r).
Proof.
  assert (Hne : items mixed_request <> []) by discriminate.
  assert (Hst : Forall2 (stored demo_store) (items mixed_request) [gift_card; rose_luxe]).
  { repeat constructor.
    - exists 4%N. split; vm_compute; reflexivity.
    - exists 1%N. split; vm_compute; reflexivity. }
  assert (Hsell : Forall sellable [gift_card; rose_luxe]).
  { repeat constructor; try (eexists; reflexivity);
      eexists _, _; split; reflexivity. }
  assert (Hq : Forall (fun item => is_Some (of_int (quantity item)))
                 (items mixed_request)) by priceable_now.
  split; [reflexivity|]. split; [reflexivity|]. split; [exact Hne|].
  split; [exact Hst|]. split; [exact Hsell|]. split; [exact Hq|].
  exact (checkout_snapshot demo_store mixed_request demo_world [gift_card; rose_luxe]
           eq_refl eq_refl Hne Hst Hsell Hq).
Defined.

(** ** Without a store *)

Lemma checkout_loop_no_store_step (item : CartItem) (rest : list CartItem)
    (out : list LineItem) (sub : float) (w : World) :
  db w = None ->
  checkout_loop (item :: rest) out sub w
  = match mul_int f49_0 (quantity item) with
    | Return lt =>
        checkout_loop rest
          (out ++ [ {| li_product_id := product_id item; li_title := "Gift Item";
                       li_price := f49_0; li_quantity := quantity item;
                       li_image := Some mock_image;
                       li_line_total := round2 lt |} ])%list
          (add sub lt) w
    | Raise e => (w, Raise e)
    end.
Proof.
  intros Hdb. cbn [checkout_loop]. unfold bind at 1.
  rewrite (resolve_no_store item w Hdb). unfold bind at 1, lift at 1.
  reflexivity.
Qed.

Lemma checkout_loop_no_store_quantities (its1 : list CartItem) :
  forall its2 out1 out2 sub w,
    db w = None ->
    map quantity its1 = map quantity its2 ->
    match snd (checkout_loop its1 out1 sub w), snd (checkout_loop its2 out2 sub w) with
    | Return (_, s1), Return (_, s2) => s1 = s2
    | Raise e1, Raise e2 => e1 = e2
    | _, _ => False
    end.
Proof.
  induction its1 as [|i1 r1 IH]; intros [|i2 r2] out1 out2 sub w Hdb Hq;
    try discriminate; [reflexivity|].
  cbn [map] in Hq. injection Hq as Hq1 Hq2.
  rewrite !checkout_loop_no_store_step by exact Hdb. rewrite Hq1.
  destruct (mul_int f49_0 (quantity i2)) as [lt|e]; [|reflexivity].
  now apply IH.
Qed.

(** X10: without a configured store the product identifiers of the cart are
    not read at all: two requests whose carts have the same quantities, line
    by line, get the same subtotal, shipping, tax and total, or raise the
    same exception, whatever identifiers they name. *)
Theorem checkout_without_store_ignores_ids (p1 p2 : CheckoutRequest) (w : World) :
  db w = None ->
  map quantity (items p1) = map quantity (items p2) ->
  outcome_amounts (snd (checkout p1 w)) = outcome_amounts (snd (checkout p2 w)).
Proof.
  intros Hdb Hq. unfold checkout.
  pose proof (checkout_loop_no_store_quantities (items p1) (items p2) [] [] zero w Hdb Hq)
    as Hl.
  pose proof (checkout_loop_no_store (items p1) [] zero w Hdb) as Hw1.
  pose proof (checkout_loop_no_store (items p2) [] zero w Hdb) as Hw2.
  destruct (items p1) as [|a1 r1], (items p2) as [|a2 r2]; try discriminate;
    [reflexivity|].
  destruct (checkout_loop (a1 :: r1) [] zero w) as [w1 [[l1 s1]|e1]] eqn:H1;
    destruct (checkout_loop (a2 :: r2) [] zero w) as [w2 [[l2 s2]|e2]] eqn:H2;
    cbn [snd fst] in *; try contradiction; subst.
  - rewrite (bind_return _ _ _ _ _ H1), (bind_return _ _ _ _ _ H2).
    unfold bind at 1 5, lift at 1 2. rewrite add_number_shipping.
    unfold bind at 1 4, get_db at 1 2. cbn [fst snd]. rewrite Hdb.
    reflexivity.
  - now rewrite (bind_raise _ _ _ _ _ H1), (bind_raise _ _ _ _ _ H2).
Qed.

(** X10 on two carts of one line, one naming a well-formed identifier and
    one naming none. *)
Lemma checkout_without_store_ignores_ids_witness :
  db no_store = None
  /\ map quantity (items (request_of [cart_item "1" 3]))
     = map quantity (items (request_of [ {| product_id := "no such id"; quantity := 3 |} ]))
  /\ outcome_amounts (snd (checkout (request_of [cart_item "1" 3]) no_store))
     = outcome_amounts
         (snd (checkout (request_of [ {| product_id := "no such id"; quantity := 3 |} ])
                 no_store)).
Proof.
  split; [reflexivity|]. split; [reflexivity|].
  exact (checkout_without_store_ignores_ids
           (request_of [cart_item "1" 3])
           (request_of [ {| product_id := "no such id"; quantity := 3 |} ])
           no_store eq_refl eq_refl).
Defined.

(** ** Signs *)

Lemma ge_int_0_signed (x : float) :
  ge_int x 0 = true <->
  match x with
  | S754_zero _ => True
  | S754_infinity s | S754_finite s _ _ => s = false
  | S754_nan => False
  end.
Proof.
  destruct x as [s|s| |s m e]; cbn [ge_int].
  - split; [trivial|reflexivity].
  - destruct s; split; intros H; try discriminate; reflexivity.
  - split; [discriminate|contradiction].
  - destruct s.
    + split; [|discriminate]. intros H. exfalso.
      destruct e as [|p|p].
      * apply Z.leb_le in H. lia.
      * apply Z.leb_le in H.
        assert (0 < 2 ^ Zpos p) by (apply Z.pow_pos_nonneg; lia). nia.
      * apply Z.leb_le in H. lia.
    + split; [reflexivity|]. intros _.
      destruct e as [|p|p]; apply Z.leb_le; lia.
Qed.

Lemma signed_false_ge_0 (x : float) : signed false x -> ge_int x 0 = true.
Proof.
  intros H. apply ge_int_0_signed. destruct x; cbn in H; auto.
Qed.

Lemma shr_1_nonneg (mrs : shr_record) : 0 <= shr_m mrs -> 0 <= shr_m (shr_1 mrs).
Proof.
  destruct mrs as [m r s]. destruct m as [|[p|p|]|[p|p|]]; cbn; lia.
Qed.

Lemma iter_shr_1_nonneg (n : positive) :
  forall mrs, 0 <= shr_m mrs -> 0 <= shr_m (SpecFloat.iter_pos shr_1 n mrs).
Proof.
  induction n as [n IH|n IH|]; intros mrs H; cbn [SpecFloat.iter_pos].
  - apply IH, IH, shr_1_nonneg, H.
  - apply IH, IH, H.
  - apply shr_1_nonneg, H.
Qed.

Lemma shr_fexp_nonneg (m e : Z) (l : location) :
  0 <= m -> 0 <= shr_m (fst (shr_fexp prec emax m e l)).
Proof.
  intros Hm. unfold shr_fexp, shr.
  assert (H0 : 0 <= shr_m (shr_record_of_loc m l)) by (destruct l as [|[]]; exact Hm).
  destruct (fexp prec emax (Zdigits2 m + e) - e) as [|p|p]; cbn [fst]; trivial.
  now apply iter_shr_1_nonneg.
Qed.

Lemma round_nearest_even_nonneg (m : Z) (l : location) :
  0 <= m -> 0 <= round_nearest_even m l.
Proof.
  intros Hm. destruct l as [|[]]; cbn; try lia. destruct (Z.even m); lia.
Qed.

(** Rounding keeps the sign it is given and never yields nan. *)
Lemma binary_round_aux_signed (s : bool) (m e : Z) (l : location) :
  0 <= m -> signed s (binary_round_aux prec emax s m e l).
Proof.
  intros Hm. unfold binary_round_aux.
  pose proof (shr_fexp_nonneg m e l Hm) as H1.
  destruct (shr_fexp prec emax m e l) as [mrs1 e1]. cbn [fst] in H1.
  pose proof (shr_fexp_nonneg _ e1 loc_Exact
                (round_nearest_even_nonneg _ (loc_of_shr_record mrs1) H1)) as H2.
  destruct (shr_fexp prec emax _ e1 loc_Exact) as [mrs2 e2]. cbn [fst] in H2.
  destruct (shr_m mrs2) as [|p|p]; [reflexivity| |lia].
  destruct (e2 <=? emax - prec); reflexivity.
Qed.

Lemma binary_round_signed (s : bool) (m : positive) (e : Z) :
  signed s (binary_round prec emax s m e).
Proof.
  unfold binary_round.
  destruct (shl_align m e _) as [mz ez]. now apply binary_round_aux_signed.
Qed.

Lemma nearest_signed (s : bool) (n d : positive) : signed s (nearest s n d).
Proof.
  unfold nearest, SFdiv_core_binary.
  set (e' := Z.min _ _). set (m' := match 0 - 0 - e' with Zpos _ => _ | Z0 => _ | Zneg _ => _ end).
  assert (Hm' : 0 <= m').
  { subst m'. destruct (0 - 0 - e') as [|p|p]; try lia. now apply Z.shiftl_nonneg. }
  pose proof (Z.div_pos m' (Zpos d) Hm' ltac:(lia)) as Hq.
  unfold Z.div in Hq. destruct (Z.div_eucl m' (Zpos d)) as [q r]. cbn [fst] in Hq.
  now apply binary_round_aux_signed.
Qed.

Lemma round2_nonneg (x : float) : ge_int x 0 = true -> ge_int (round2 x) 0 = true.
Proof.
  intros H. apply ge_int_0_signed in H.
  destruct x as [s|s| |s m e]; cbn [round2]; try (now apply ge_int_0_signed).
  subst s. destruct (cents m e) as [|q|q]; try reflexivity.
  apply signed_false_ge_0, nearest_signed.
Qed.

Lemma add_nonneg (x y : float) :
  ge_int x 0 = true -> ge_int y 0 = true -> ge_int (add x y) 0 = true.
Proof.
  intros Hx Hy. apply ge_int_0_signed in Hx. apply ge_int_0_signed in Hy.
  unfold add.
  destruct x as [sx|sx| |sx mx ex], y as [sy|sy| |sy my ey];
    try contradiction; subst; cbn [SFadd];
    try (apply ge_int_0_signed; trivial; fail).
  - destruct sx, sy; reflexivity.
  - apply signed_false_ge_0. cbn [cond_Zopp Z.add]. apply binary_round_signed.
Qed.

Lemma mul_nonneg (x : float) (my : positive) (ey : Z) :
  ge_int x 0 = true -> ge_int (mul x (S754_finite false my ey)) 0 = true.
Proof.
  intros Hx. apply ge_int_0_signed in Hx. unfold mul.
  destruct x as [sx|sx| |sx mx ex]; try contradiction; subst; cbn [SFmul xorb].
  - destruct sx; reflexivity.
  - reflexivity.
  - apply signed_false_ge_0. apply binary_round_aux_signed. lia.
Qed.

(** The float of an int from 1 to below 2^53 is finite and positive. *)
Lemma nearest_int_small_pos (n : Z) :
  1 <= n < 2 ^ 53 -> exists m e, nearest_int n = S754_finite false m e.
Proof.
  intros Hn. unfold nearest_int, binary_normalize.
  destruct n as [|m|m]; try lia.
  assert (Hm : Zpos m < 2 ^ 53) by lia.
  pose proof (digits2_pos_bound m Hm) as Hd.
  unfold binary_round, shl_align.
  assert (Hfexp : fexp prec emax (Zpos (digits2_pos m) + 0) - 0
                  = Zpos (digits2_pos m) - 53)
    by (unfold fexp, emin, prec, emax; lia).
  rewrite Hfexp.
  destruct (Zpos (digits2_pos m) - 53) as [|k|k] eqn:Hk; [|lia|].
  - replace (fexp prec emax (Zpos (digits2_pos m) + 0)) with 0 by lia.
    rewrite binary_round_aux_canonical by lia. now eexists _, _.
  - replace (fexp prec emax (Zpos (digits2_pos m) + 0)) with (Zneg k) by lia.
    rewrite binary_round_aux_canonical; [now eexists _, _| |lia].
    rewrite digits2_pos_shift. lia.
Qed.

(** ** The stored order and its schema *)

Lemma raw_line_total_nonneg (li : LineItem) :
  ge_int (li_price li) 0 = true -> 1 <= li_quantity li < 2 ^ 53 ->
  ge_int (raw_line_total li) 0 = true.
Proof.
  intros Hp Hq. unfold raw_line_total.
  destruct (nearest_int_small_pos _ Hq) as (m & e & ->).
  now apply mul_nonneg.
Qed.

Lemma fold_add_nonneg (xs : list float) :
  forall acc,
    Forall (fun x => ge_int x 0 = true) xs -> ge_int acc 0 = true ->
    ge_int (fold_left add xs acc) 0 = true.
Proof.
  induction xs as [|x xs IH]; intros acc Hxs Hacc; [exact Hacc|].
  inversion Hxs; subst. cbn [fold_left]. apply IH; [assumption|].
  now apply add_nonneg.
Qed.

Lemma order_doc_valid (payload : CheckoutRequest) (lines : list LineItem) :
  Forall (fun li => ge_int (li_price li) 0 = true /\ 1 <= li_quantity li < 2 ^ 53) lines ->
  Order_valid (order_doc_of payload lines) = true.
Proof.
  intros Hlines.
  assert (Hsub : ge_int (raw_subtotal lines) 0 = true).
  { unfold raw_subtotal. apply fold_add_nonneg; [|reflexivity].
    apply Forall_map. eapply Forall_impl; [exact Hlines|].
    intros li [Hp Hq]. now apply raw_line_total_nonneg. }
  assert (Htax : ge_int (round2 (mul (raw_subtotal lines) f0_08)) 0 = true).
  { apply round2_nonneg. rewrite f0_08_bits. now apply mul_nonneg. }
  unfold Order_valid, order_doc_of.
  cbn [o_items o_subtotal o_shipping o_tax o_total].
  repeat (apply andb_true_intro; split).
  - apply forallb_forall. intros li Hin.
    rewrite Forall_forall in Hlines. destruct (Hlines li) as [Hp Hq].
    { now apply list_elem_of_In. }
    unfold OrderItem_valid. rewrite Hp. cbn. apply Z.leb_le. lia.
  - now apply round2_nonneg.
  - unfold shipping_of. destruct (ge_int (raw_subtotal lines) 75);
      vm_compute; reflexivity.
  - exact Htax.
  - apply round2_nonneg. apply add_nonneg; [|exact Htax].
    apply add_nonneg; [exact Hsub|].
    destruct (ge_int (raw_subtotal lines) 75); vm_compute; reflexivity.
Qed.

(** X6: on a configured store, a non-empty cart whose every line has a
    quantity from 1 to below 2^53 and resolves to a price that is at least 0
    is answered, and the order document it inserts satisfies the bounds that
    [schemas.Order] and [schemas.OrderItem] declare: every quantity at least
    1, every price and the subtotal, shipping, tax and total at least 0 (in
    particular none of them is nan). *)
Theorem checkout_order_valid (payload : CheckoutRequest) (w : World) :
  db w <> None ->
  items payload <> [] ->
  Forall (regular w) (items payload) ->
  exists w' r reads o,
    checkout payload w = (w', Return r)
    /\ calls w' = (calls w ++ reads ++ [InsertOne "order" (OrderDocument o)])%list
    /\ Order_valid o = true.
Proof.
  intros Hdb Hne Hreg.
  assert (Hall : Forall (priceable w) (items payload)).
  { eapply Forall_impl; [exact Hreg|].
    intros item [Hq (p & t & i & Hr & _)]. split; [eexists; exact Hr|].
    apply of_int_small. lia. }
  destruct (checkout_store_ok payload w Hdb Hne Hall) as (lines & Hlines & Hok).
  eexists _, _, (flat_map (resolve_calls (db w)) (items payload)),
    (order_doc_of payload lines).
  split; [exact Hok|]. split.
  { rewrite create_document_calls by exact Hdb. cbn [calls]. now rewrite app_assoc. }
  apply order_doc_valid.
  clear Hok Hall Hne.
  induction Hlines as [|item li its lis Hl _ IH]; [constructor|].
  inversion Hreg as [|? ? [Hq (p & t & i & Hr & Hp)] Hrest]; subst.
  constructor; [|now apply IH].
  destruct Hl as (Hres & _ & Hqty & _).
  rewrite Hr in Hres. inversion Hres as [[Hpp Ht Hi]].
  rewrite <- Hpp, Hqty. now split.
Qed.

(** X6 on a cart of one Gift Card and two Rose Luxe sets. *)
Lemma checkout_order_valid_witness :
  db demo_world <> None
  /\ items mixed_request <> []
  /\ Forall (regular demo_world) (items mixed_request)
  /\ exists w' r reads o,
       checkout mixed_request demo_world = (w', Return r)
       /\ calls w' = (calls demo_world ++ reads
                      ++ [InsertOne "order" (OrderDocument o)])%list
       /\ Order_valid o = true.
Proof.
  assert (Hdb : db demo_world <> None) by discriminate.
  assert (Hne : items mixed_request <> []) by discriminate.
  assert (Hreg : Forall (regular demo_world) (items mixed_request)).
  { repeat constructor; try (cbn; lia);
      eexists _, _, _; split; vm_compute; reflexivity. }
  split; [exact Hdb|]. split; [exact Hne|]. split; [exact Hreg|].
  exact (checkout_order_valid mixed_request demo_world Hdb Hne Hreg).
Defined.

(** * Product listing *)

(** ** Identifiers *)

Lemma hex_digit_hex_char (d : N) : (d < 16)%N -> hex_digit (hex_char d) = Some d.
Proof.
  intros H. destruct d as [|p]; [reflexivity|].
  repeat (destruct p as [p|p|]; try reflexivity; try lia).
Qed.

Lemma hex_of_length (n : nat) :
  forall v acc, String.length (hex_of n v acc) = (n + String.length acc)%nat.
Proof.
  induction n as [|n IH]; intros v acc; [reflexivity|].
  cbn [hex_of]. rewrite IH. cbn [String.length]. lia.
Qed.

Lemma parse_hex_hex_of (n : nat) :
  forall v acc a,
    parse_hex (hex_of n v acc) a
    = parse_hex acc (a * 16 ^ N.of_nat n + v mod 16 ^ N.of_nat n)%N.
Proof.
  induction n as [|n IH]; intros v acc a.
  - cbn [hex_of]. f_equal. cbn. rewrite N.mod_1_r. lia.
  - cbn [hex_of]. rewrite IH. cbn [parse_hex].
    rewrite hex_digit_hex_char by (apply N.mod_lt; lia).
    f_equal. rewrite Nat2N.inj_succ, N.pow_succ_r'.
    rewrite (N.Div0.mod_mul_r v 16 (16 ^ N.of_nat n)). lia.
Qed.

(** The string form of a 12-byte identifier parses back to it. *)
Lemma ObjectId_str (oid : N) :
  (oid < 2 ^ 96)%N -> ObjectId (str_ObjectId oid) = Return oid.
Proof.
  intros H. unfold ObjectId, str_ObjectId.
  rewrite hex_of_length. cbn [String.length Nat.add Nat.eqb].
  rewrite parse_hex_hex_of. cbn [parse_hex].
  change (16 ^ N.of_nat 24)%N with (2 ^ 96)%N.
  rewrite N.mod_small by exact H. now rewrite N.mul_0_l, N.add_0_l.
Qed.

(** ** serialize_product *)

Lemma validate_images_urls (imgs : list ProductImage) (outs : list ProductImageOut) :
  validate_images imgs = Some outs ->
  Forall2 (fun img out => url img = Some (io_url out) /\ alt img = io_alt out) imgs outs.
Proof.
  revert outs. induction imgs as [|img rest IH]; intros outs H; cbn [validate_images] in H.
  - inversion H. constructor.
  - destruct (url img) as [u|] eqn:Hu; [|discriminate].
    destruct (validate_images rest) as [outs'|]; [|discriminate].
    inversion H; subst. constructor; [now split|now apply IH].
Qed.

(** What a returned [ProductOut] was built from. *)
Lemma serialize_product_done (oid : N) (doc : Document) (out : ProductOut) :
  serialize_product oid doc = Done out ->
  exists p imgs,
    doc = ProductDocument p
    /\ title p = Some (po_title out)
    /\ py_float (default (Int 0) (price p)) = Return (po_price out)
    /\ validate_images (default [] (images p)) = Some imgs
    /\ po_images out = imgs
    /\ po_id out = str_ObjectId oid
    /\ ProductOut_valid out = true.
Proof.
  unfold serialize_product. intros H.
  destruct (py_float (default (Int 0) (price (product_view doc)))) as [x|e] eqn:Hp;
    [|discriminate].
  destruct (title (product_view doc)) as [t|] eqn:Ht; [|discriminate].
  destruct (validate_images (default [] (images (product_view doc)))) as [imgs|] eqn:Hi;
    [|discriminate].
  unfold ProductOut_errors in H. cbn [app] in H.
  destruct (ge_int x 0) eqn:Hge; [|discriminate]. cbn [app] in H.
  destruct (ge_int (default zero (rating (product_view doc))) 0
            && le_int (default zero (rating (product_view doc))) 5) eqn:Hr;
    [|discriminate]. cbn [app] in H.
  destruct (0 <=? default 0 (stock_qty (product_view doc))) eqn:Hs; [|discriminate].
  inversion H; subst out; clear H.
  destruct doc as [p|o]; [|cbn in Ht; discriminate].
  exists p, imgs. cbn [product_view] in *.
  unfold ProductOut_valid. cbn [po_title po_price po_images po_id po_rating po_stock_qty].
  rewrite Hge, Hr, Hs. repeat split; assumption.
Qed.

(** X11: whenever [serialize_product] returns, the product it returns
    satisfies the bounds that [schemas.Product] declares (a price that is at
    least 0 and not nan, a rating within 0..5, a stock that is at least 0),
    carries the stored title, lists exactly the stored images, each with its
    url, and, for a 12-byte identifier, has an [id] that [ObjectId] parses
    back to the identifier of the document. *)
Theorem serialize_product_sound (oid : N) (doc : Document) (out : ProductOut) :
  (oid < 2 ^ 96)%N ->
  serialize_product oid doc = Done out ->
  ProductOut_valid out = true
  /\ ObjectId (po_id out) = Return oid
  /\ title (product_view doc) = Some (po_title out)
  /\ Forall2 (fun img o => url img = Some (io_url o) /\ alt img = io_alt o)
       (default [] (images (product_view doc))) (po_images out).
Proof.
  intros Hoid H.
  destruct (serialize_product_done oid doc out H)
    as (p & imgs & -> & Ht & _ & Hi & Him & Hid & Hv).
  cbn [product_view]. split; [exact Hv|]. split; [|split; [exact Ht|]].
  - rewrite Hid. now apply ObjectId_str.
  - rewrite Him. now apply validate_images_urls.
Qed.

(** X11 on the seeded Rose Luxe set. *)
Lemma serialize_product_sound_witness :
  (1 < 2 ^ 96)%N
  /\ exists out,
       serialize_product 1 (ProductDocument rose_luxe) = Done out
       /\ ProductOut_valid out = true
       /\ ObjectId (po_id out) = Return 1%N
       /\ title (product_view (ProductDocument rose_luxe)) = Some (po_title out)
       /\ Forall2 (fun img o => url img = Some (io_url o) /\ alt img = io_alt o)
            (default [] (images (product_view (ProductDocument rose_luxe))))
            (po_images out).
Proof.
  assert (Hoid : (1 < 2 ^ 96)%N) by reflexivity.
  split; [exact Hoid|].
  destruct (serialize_product 1 (ProductDocument rose_luxe)) as [out|f] eqn:H.
  - exists out. split; [reflexivity|].
    exact (serialize_product_sound 1 (ProductDocument rose_luxe) out Hoid H).
  - exfalso. vm_compute in H. discriminate.
Defined.

(** X12: the listing and the checkout agree. A document of a reachable
    store that [serialize_product] lists, and that has a price, can be
    ordered under the listed [id]: the cart line resolves to the listed
    price, the listed title and the url of the first listed image (none if
    none is listed). *)
Theorem listed_product_is_charged (d : Database) (w : World) (oid : N)
    (doc : Document) (out : ProductOut) (item : CartItem) :
  db w = Some d -> connected d = true ->
  (oid < 2 ^ 96)%N ->
  collection d "product" !! oid = Some doc ->
  serialize_product oid doc = Done out ->
  is_Some (price (product_view doc)) ->
  product_id item = po_id out ->
  snd (resolve item w) = Return (po_price out, po_title out, first_listed_url out).
Proof.
  intros Hdb Hc Hoid Hl Hser [v Hv] Hid.
  destruct (serialize_product_done oid doc out Hser)
    as (p & imgs & -> & Ht & Hp & Hi & Him & Hpid & _).
  cbn [product_view] in Hv. rewrite Hv in Hp. cbn [default] in Hp. unfold id in Hp.
  assert (Himg : first_image_url (ProductDocument p) = first_listed_url out).
  { unfold first_image_url, first_listed_url. rewrite Him.
    destruct (images p) as [[|img rest]|]; simpl in Hi.
    - now inversion Hi.
    - destruct (url img) as [u|]; [|cbn in Hi; discriminate].
      destruct (validate_images rest); [|cbn in Hi; discriminate]. now inversion Hi.
    - now inversion Hi. }
  unfold resolve, bind, get_db, try_except, lookup_product, bind, lift,
    find_one, bind, log, ret, raise.
  rewrite Hdb; cbn [snd fst]. rewrite Hid, Hpid, (ObjectId_str oid Hoid); cbn [snd fst].
  rewrite Hc; cbn [snd fst]. rewrite Hl; cbn [snd fst].
  unfold getitem_price, getitem_title.
  rewrite Hv; cbn [snd fst]. rewrite Hp; cbn [snd fst]. rewrite Ht; cbn [snd fst].
  now rewrite Himg.
Qed.

(** X12 on the Gift Card of the sample store. *)
Lemma listed_product_is_charged_witness :
  db demo_world = Some demo_store /\ connected demo_store = true
  /\ (4 < 2 ^ 96)%N
  /\ collection demo_store "product" !! 4%N = Some (ProductDocument gift_card)
  /\ is_Some (price (product_view (ProductDocument gift_card)))
  /\ exists out,
       serialize_product 4 (ProductDocument gift_card) = Done out
       /\ product_id (cart_item "4" 1) = po_id out
       /\ snd (resolve (cart_item "4" 1) demo_world)
          = Return (po_price out, po_title out, first_listed_url out).
Proof.
  assert (Hoid : (4 < 2 ^ 96)%N) by reflexivity.
  assert (Hl : collection demo_store "product" !! 4%N = Some (ProductDocument gift_card))
    by (vm_compute; reflexivity).
  assert (Hp : is_Some (price (product_view (ProductDocument gift_card))))
    by (eexists; reflexivity).
  split; [reflexivity|]. split; [reflexivity|]. split; [exact Hoid|].
  split; [exact Hl|]. split; [exact Hp|].
  destruct (serialize_product 4 (ProductDocument gift_card)) as [out|f] eqn:H.
  - assert (Hid : product_id (cart_item "4" 1) = po_id out).
    { vm_compute in H. inversion H. reflexivity. }
    exists out. split; [reflexivity|]. split; [exact Hid|].
    exact (listed_product_is_charged demo_store demo_world 4 (ProductDocument gift_card)
             out (cart_item "4" 1) eq_refl eq_refl Hoid Hl H Hp Hid).
  - exfalso. vm_compute in H. discriminate.
Defined.

(** X13: a stored document without a price is listed all the same, at the
    price 0.0 that [serialize_product] takes by default, but it cannot be
    ordered: [checkout] requires the key, and the cart line that names the
    listed [id] raises 400 "Invalid product id". *)
Theorem unpriced_product_listed_not_sold (d : Database) (w : World) (oid : N)
    (doc : Document) (out : ProductOut) (item : CartItem) :
  db w = Some d -> connected d = true ->
  (oid < 2 ^ 96)%N ->
  collection d "product" !! oid = Some doc ->
  price (product_view doc) = None ->
  serialize_product oid doc = Done out ->
  product_id item = po_id out ->
  po_price out = zero
  /\ snd (resolve item w) = Raise (HTTPException 400 "Invalid product id").
Proof.
  intros Hdb Hc Hoid Hl Hnone Hser Hid.
  destruct (serialize_product_done oid doc out Hser)
    as (p & imgs & -> & Ht & Hp & _ & _ & Hpid & _).
  cbn [product_view] in Hnone. rewrite Hnone in Hp. cbn in Hp.
  split; [now inversion Hp|].
  apply (resolve_unresolvable d item w Hdb).
  apply (bad_document d item oid (ProductDocument p) (KeyError "price")).
  - rewrite Hid, Hpid. now apply ObjectId_str.
  - exact Hc.
  - exact Hl.
  - left. unfold getitem_price. now rewrite Hnone.
Qed.

(** X13 on a store that holds one product without a price. *)
Lemma unpriced_product_listed_not_sold_witness :
  db {| db := Some unpriced_store; calls := [] |} = Some unpriced_store
  /\ connected unpriced_store = true
  /\ (7 < 2 ^ 96)%N
  /\ collection unpriced_store "product" !! 7%N = Some (ProductDocument unpriced)
  /\ price (product_view (ProductDocument unpriced)) = None
  /\ exists out,
       serialize_product 7 (ProductDocument unpriced) = Done out
       /\ product_id (cart_item "7" 1) = po_id out
       /\ po_price out = zero
       /\ snd (resolve (cart_item "7" 1) {| db := Some unpriced_store; calls := [] |})
          = Raise (HTTPException 400 "Invalid product id").
Proof.
  assert (Hoid : (7 < 2 ^ 96)%N) by reflexivity.
  assert (Hl : collection unpriced_store "product" !! 7%N
               = Some (ProductDocument unpriced)) by (vm_compute; reflexivity).
  split; [reflexivity|]. split; [reflexivity|]. split; [exact Hoid|].
  split; [exact Hl|]. split; [reflexivity|].
  destruct (serialize_product 7 (ProductDocument unpriced)) as [out|f] eqn:H.
  - assert (Hid : product_id (cart_item "7" 1) = po_id out).
    { vm_compute in H. inversion H. reflexivity. }
    exists out. split; [reflexivity|]. split; [exact Hid|].
    exact (unpriced_product_listed_not_sold unpriced_store
             {| db := Some unpriced_store; calls := [] |} 7
             (ProductDocument unpriced) out (cart_item "7" 1)
             eq_refl eq_refl Hoid Hl eq_refl H Hid).
  - exfalso. vm_compute in H. discriminate.
Defined.

(** ** list_products *)

Lemma serialize_all_spec (docs : list (N * Document)) :
  match serialize_all docs with
  | Done outs =>
      Forall2 (fun d out => serialize_product (fst d) (snd d) = Done out) docs outs
  | Fail f =>
      exists pre d post,
        docs = (pre ++ d :: post)%list
        /\ Forall (fun x => exists out, serialize_product (fst x) (snd x) = Done out) pre
        /\ serialize_product (fst d) (snd d) = Fail f
  end.
Proof.
  induction docs as [|[oid doc] rest IH]; cbn [serialize_all]; [constructor|].
  destruct (serialize_product oid doc) as [out|f] eqn:H.
  - destruct (serialize_all rest) as [outs|f].
    + now constructor.
    + destruct IH as (pre & d & post & -> & Hpre & Hd).
      exists ((oid, doc) :: pre), d, post. split; [reflexivity|]. split; [|exact Hd].
      constructor; [now exists out|exact Hpre].
  - exists [], (oid, doc), rest. split; [reflexivity|]. split; [constructor|exact H].
Qed.

(** X14: the listing is all or nothing. On a configured store, whatever
    documents [get_documents] returns, [list_products] either returns one
    product per document, in the same order, each the serialization of its
    document, or it fails as a whole with the failure of the first document
    that does not serialize (one without a title, say), every document
    before that one being fine. *)
Theorem list_products_all_or_nothing
    (get_documents : string -> ProductFilter -> M (list (N * Document)))
    (q cat : option string) (w w' : World) (docs : list (N * Document)) :
  db w <> None ->
  get_documents "product" (filter_dict q cat) w = (w', Return docs) ->
  match snd (list_products get_documents q cat w) with
  | Done outs =>
      Forall2 (fun d out => serialize_product (fst d) (snd d) = Done out) docs outs
  | Fail f =>
      exists pre d post,
        docs = (pre ++ d :: post)%list
        /\ Forall (fun x => exists out, serialize_product (fst x) (snd x) = Done out) pre
        /\ serialize_product (fst d) (snd d) = Fail f
  end.
Proof.
  intros Hdb Hget. unfold list_products.
  destruct (db w); [|congruence]. rewrite Hget. cbn [snd].
  apply serialize_all_spec.
Qed.

(** X14 when the second of two documents has no title: nothing is listed. *)
Lemma list_products_all_or_nothing_witness :
  db demo_world <> None
  /\ two_documents (1%N, ProductDocument rose_luxe) (8%N, ProductDocument untitled)
       "product" (filter_dict None None) demo_world
     = (demo_world,
        Return [(1%N, ProductDocument rose_luxe); (8%N, ProductDocument untitled)])
  /\ snd (list_products
            (two_documents (1%N, ProductDocument rose_luxe) (8%N, ProductDocument untitled))
            None None demo_world)
     = Fail (ValidationError ["title"])
  /\ match snd (list_products
                  (two_documents (1%N, ProductDocument rose_luxe)
                     (8%N, ProductDocument untitled))
                  None None demo_world) with
     | Done outs =>
         Forall2 (fun d out => serialize_product (fst d) (snd d) = Done out)
           [(1%N, ProductDocument rose_luxe); (8%N, ProductDocument untitled)] outs
     | Fail f =>
         exists pre d post,
           [(1%N, ProductDocument rose_luxe); (8%N, ProductDocument untitled)]
           = (pre ++ d :: post)%list
           /\ Forall (fun x => exists out, serialize_product (fst x) (snd x) = Done out) pre
           /\ serialize_product (fst d) (snd d) = Fail f
     end.
Proof.
  assert (Hdb : db demo_world <> None) by discriminate.
  split; [exact Hdb|]. split; [reflexivity|]. split; [vm_compute; reflexivity|].
  exact (list_products_all_or_nothing
           (two_documents (1%N, ProductDocument rose_luxe) (8%N, ProductDocument untitled))
           None None demo_world demo_world
           [(1%N, ProductDocument rose_luxe); (8%N, ProductDocument untitled)]
           Hdb eq_refl).
Defined.

(** * Seeding *)

Lemma insert_many_lookup (docs : list Document) :
  forall (c : gmap N Document) (oid : N) (doc : Document),
    c !! oid = Some doc -> insert_many docs c !! oid = Some doc.
Proof.
  induction docs as [|d rest IH]; intros c oid doc H; [exact H|].
  cbn [insert_many]. apply IH. rewrite lookup_insert_ne; [exact H|].
  intros Heq. apply (is_fresh (dom c)). rewrite Heq.
  apply elem_of_dom. now exists doc.
Qed.

Lemma insert_many_size (docs : list Document) :
  forall c : gmap N Document, size (insert_many docs c) = (size c + length docs)%nat.
Proof.
  induction docs as [|d rest IH]; intros c; cbn [insert_many length]; [lia|].
  rewrite IH. rewrite map_size_insert_None; [lia|].
  apply not_elem_of_dom. apply is_fresh.
Qed.

Lemma insert_many_values (docs : list Document) :
  forall (c : gmap N Document) (doc : Document),
    (exists oid, insert_many docs c !! oid = Some doc)
    <-> (exists oid, c !! oid = Some doc) \/ In doc docs.
Proof.
  induction docs as [|d rest IH]; intros c doc; cbn [insert_many In].
  - tauto.
  - rewrite IH. split.
    + intros [[oid H]|H]; [|tauto].
      destruct (decide (fresh (dom c) = oid)) as [<-|Hne].
      * rewrite lookup_insert_eq in H. inversion H. tauto.
      * rewrite lookup_insert_ne in H by exact Hne. left. now exists oid.
    + intros [[oid H]|[->|H]]; [| |tauto].
      * left. exists oid. rewrite lookup_insert_ne; [exact H|].
        intros Heq. apply (is_fresh (dom c)). rewrite Heq.
        apply elem_of_dom. now exists doc.
      * left. exists (fresh (dom c)). now rewrite lookup_insert_eq.
Qed.

(** X15: seeding is idempotent: on the handle that one run of
    [seed_products] leaves, a second run returns the same handle and
    inserts nothing more. *)
Theorem seed_products_idempotent (handle handle' : option Database) :
  seed_products handle = Return handle' ->
  seed_products handle' = Return handle'.
Proof.
  unfold seed_products. intros H.
  destruct handle as [d|]; [|now inversion H].
  destruct (connected d) eqn:Hc; [|discriminate].
  destruct (count_documents (collection d "product") =? 0)%nat eqn:Hn;
    match type of H with Return ?x = _ => assert (E : handle' = x) by congruence end;
    subst handle'; clear H.
  - cbn [connected]. rewrite collection_insert_eq.
    unfold count_documents at 1. rewrite insert_many_size.
    replace (size (collection d "product") + length demo =? 0)%nat with false;
      [reflexivity|].
    symmetry. apply Nat.eqb_neq. cbn [length demo]. lia.
  - now rewrite Hc, Hn.
Qed.

(** X15 on a reachable store without any collection. *)
Lemma seed_products_idempotent_witness :
  exists handle',
    seed_products (Some {| collections := ∅; connected := true |}) = Return handle'
    /\ seed_products handle' = Return handle'.
Proof.
  destruct (seed_products (Some {| collections := ∅; connected := true |}))
    as [handle'|e] eqn:H.
  - exists handle'. split; [reflexivity|].
    exact (seed_products_idempotent _ handle' H).
  - exfalso. vm_compute in H. discriminate.
Defined.

(** X16: seeding destroys nothing: every document that was stored, in any
    collection, is still stored under its identifier; every collection other
    than "product" is the same as before; and a store whose "product"
    collection holds at least one document is returned as it is. *)
Theorem seed_products_keeps_documents (d d' : Database) :
  seed_products (Some d) = Return (Some d') ->
  (forall name oid doc,
      collection d name !! oid = Some doc -> collection d' name !! oid = Some doc)
  /\ (forall name, name <> "product" -> collection d' name = collection d name)
  /\ (forall oid doc, collection d "product" !! oid = Some doc -> d' = d).
Proof.
  unfold seed_products. intros H.
  destruct (connected d) eqn:Hc; [|discriminate].
  destruct (count_documents (collection d "product") =? 0)%nat eqn:Hn;
    match type of H with Return (Some ?x) = _ => assert (E : d' = x) by congruence end;
    subst d'; clear H.
  - split; [|split].
    + intros name oid doc Hl.
      destruct (decide (name = "product")) as [->|Hne].
      * rewrite collection_insert_eq. now apply insert_many_lookup.
      * rewrite collection_insert_ne by congruence. now destruct d.
    + intros name Hne. rewrite collection_insert_ne by congruence. now destruct d.
    + intros oid doc Hl. exfalso.
      apply Nat.eqb_eq in Hn. unfold count_documents in Hn.
      apply map_size_empty_inv in Hn. rewrite Hn in Hl.
      now rewrite lookup_empty in Hl.
  - repeat split; auto.
Qed.

(** X16 on a store that holds one order and no product: seeding inserts
    the three demonstration products and the order is still stored under
    its identifier; and on the sample store, which already holds products
    and is left as it is. *)
Lemma seed_products_keeps_documents_witness :
  (exists d',
      seed_products (Some orders_only_store) = Return (Some d')
      /\ size (collection orders_only_store "product") = 0%nat
      /\ size (collection d' "product") = 3%nat
      /\ collection orders_only_store "order" !! 7%N
         = Some (OrderDocument gift_card_order)
      /\ collection d' "order" !! 7%N = Some (OrderDocument gift_card_order)
      /\ (forall name oid doc,
             collection orders_only_store name !! oid = Some doc ->
             collection d' name !! oid = Some doc)
      /\ (forall name, name <> "product" ->
                       collection d' name = collection orders_only_store name)
      /\ (forall oid doc,
             collection orders_only_store "product" !! oid = Some doc ->
             d' = orders_only_store))
  /\ (seed_products (Some demo_store) = Return (Some demo_store)
      /\ forall oid doc, collection demo_store "product" !! oid = Some doc ->
                         demo_store = demo_store).
Proof.
  split.
  - exists {| collections :=
               <["product" := insert_many demo (collection orders_only_store "product")]>
                 (collections orders_only_store);
             connected := connected orders_only_store |}.
    assert (H : seed_products (Some orders_only_store)
                = Return (Some {|
                    collections :=
                      <["product" :=
                          insert_many demo (collection orders_only_store "product")]>
                        (collections orders_only_store);
                    connected := connected orders_only_store |}))
      by reflexivity.
    pose proof (seed_products_keeps_documents orders_only_store _ H) as (K1 & K2 & K3).
    assert (Hold : collection orders_only_store "order" !! 7%N
                   = Some (OrderDocument gift_card_order)) by reflexivity.
    split; [exact H|]. split; [reflexivity|].
    split; [rewrite collection_insert_eq, insert_many_size; reflexivity|].
    split; [exact Hold|]. split; [exact (K1 "order" 7%N _ Hold)|].
    split; [exact K1|]. split; [exact K2|exact K3].
  - assert (H : seed_products (Some demo_store) = Return (Some demo_store))
      by (vm_compute; reflexivity).
    split; [exact H|].
    exact (proj2 (proj2 (seed_products_keeps_documents demo_store demo_store H))).
Defined.

(** X17: on a reachable store whose "product" collection is empty,
    [seed_products] leaves exactly three product documents, under three
    different identifiers: the documents of [demo] and no other. *)
Theorem seed_products_on_empty (d : Database) :
  connected d = true ->
  collection d "product" = ∅ ->
  exists d',
    seed_products (Some d) = Return (Some d')
    /\ size (collection d' "product") = 3%nat
    /\ forall doc, (exists oid, collection d' "product" !! oid = Some doc) <-> In doc demo.
Proof.
  intros Hc Hempty. unfold seed_products. rewrite Hc, Hempty.
  unfold count_documents. rewrite map_size_empty. cbn [Nat.eqb].
  eexists. split; [reflexivity|].
  rewrite collection_insert_eq. split.
  - rewrite insert_many_size, map_size_empty. reflexivity.
  - intros doc. rewrite insert_many_values. split.
    + intros [[oid H]|H]; [|exact H]. now rewrite lookup_empty in H.
    + intros H. now right.
Qed.

(** X17 on a reachable store without any collection. *)
Lemma seed_products_on_empty_witness :
  connected {| collections := ∅; connected := true |} = true
  /\ collection {| collections := ∅; connected := true |} "product" = ∅
  /\ exists d',
       seed_products (Some {| collections := ∅; connected := true |}) = Return (Some d')
       /\ size (collection d' "product") = 3%nat
       /\ forall doc, (exists oid, collection d' "product" !! oid = Some doc)
                      <-> In doc demo.
Proof.
  split; [reflexivity|]. split; [reflexivity|].
  exact (seed_products_on_empty {| collections := ∅; connected := true |}
           eq_refl eq_refl).
Defined.
